(** * godot-asset-list: the asset-library scraper ([asset_library.py])

    A shallow embedding of [GodotAssetScraper] and the properties of its
    crawl-and-extract pipeline.

    Python [str] values are modelled as [string] holding the UTF-8 bytes of
    the text.  Byte-wise lexicographic order on UTF-8 coincides with
    Python's code-point order, and searching, splitting or replacing an
    ASCII pattern acts on the bytes exactly as on the code points. *)

From Stdlib Require Import ZArith Ascii String List Bool Lia.
From stdpp Require Import base option gmap strings list fin_maps pretty.

Local Open Scope string_scope.
Local Open Scope list_scope.

(** ** Python string primitives used by the scraper *)

Module PyStr.

(** [sub in s] for strings. *)
Fixpoint contains (sub s : string) : bool :=
  if String.prefix sub s then true
  else match s with
       | EmptyString => false
       | String _ rest => contains sub rest
       end.

(** [s.split(sep)] for a one-character separator. *)
Fixpoint split (sep : ascii) (s : string) : list string :=
  match s with
  | EmptyString => [EmptyString]
  | String c rest =>
      if Ascii.eqb c sep then EmptyString :: split sep rest
      else match split sep rest with
           | piece :: pieces => String c piece :: pieces
           | [] => [String c EmptyString]
           end
  end.

(** [s.split(sep, maxsplit)]: at most [maxsplit] cuts, from the left; the
    remainder of the string is the last piece. *)
Fixpoint split_max (sep : ascii) (s : string) (maxsplit : nat) : list string :=
  match s with
  | EmptyString => [EmptyString]
  | String c rest =>
      match maxsplit with
      | O => [s]
      | S fewer =>
          if Ascii.eqb c sep then EmptyString :: split_max sep rest fewer
          else match split_max sep rest maxsplit with
               | piece :: pieces => String c piece :: pieces
               | [] => [String c EmptyString]
               end
      end
  end.

(** [s.rsplit(sep)] without [maxsplit] cuts at every separator and so
    returns the same list as [s.split(sep)]. *)
Definition rsplit (sep : ascii) (s : string) : list string := split sep s.

(** [sep.join(pieces)] *)
Definition join (sep : string) (pieces : list string) : string :=
  String.concat sep pieces.

(** [s.replace(old, new)]: every non-overlapping occurrence of a non-empty
    [old], scanning left to right.  [skip] counts the characters of the
    occurrence just replaced that are still to be dropped. *)
Fixpoint replace_from (old new : string) (skip : nat) (s : string) : string :=
  match s with
  | EmptyString => EmptyString
  | String c rest =>
      match skip with
      | S k => replace_from old new k rest
      | O =>
          if String.prefix old s
          then String.append new (replace_from old new (String.length old - 1) rest)
          else String c (replace_from old new 0 rest)
      end
  end.

Definition replace (old new s : string) : string := replace_from old new 0 s.

(** [str.isspace] on one code point, read off the UTF-8 bytes at the head
    of [s]: the number of bytes of the white-space character that starts
    [s], or [None].  The white-space code points are U+0009..U+000D,
    U+001C..U+0020, U+0085, U+00A0, U+1680, U+2000..U+200A, U+2028,
    U+2029, U+202F, U+205F and U+3000. *)
Definition space_prefix (s : string) : option nat :=
  match List.map N_of_ascii (list_ascii_of_string s) with
  | b0 :: more =>
      if ((9 <=? b0) && (b0 <=? 13) || (28 <=? b0) && (b0 <=? 32))%N then Some 1
      else match more with
           | b1 :: more' =>
               if ((b0 =? 194) && ((b1 =? 133) || (b1 =? 160)))%N then Some 2
               else match more' with
                    | b2 :: _ =>
                        if ((b0 =? 225) && (b1 =? 154) && (b2 =? 128)
                            || (b0 =? 226) && (b1 =? 128)
                               && ((128 <=? b2) && (b2 <=? 138)
                                   || (b2 =? 168) || (b2 =? 169) || (b2 =? 175))
                            || (b0 =? 226) && (b1 =? 129) && (b2 =? 159)
                            || (b0 =? 227) && (b1 =? 128) && (b2 =? 128))%N
                        then Some 3 else None
                    | [] => None
                    end
           | [] => None
           end
  | [] => None
  end.

Fixpoint drop (n : nat) (s : string) : string :=
  match n, s with
  | S k, String _ rest => drop k rest
  | _, _ => s
  end.

(** [s.lstrip()]; [fuel] bounds the number of characters removed. *)
Fixpoint lstrip_fuel (fuel : nat) (s : string) : string :=
  match fuel with
  | O => s
  | S less =>
      match space_prefix s with
      | Some n => lstrip_fuel less (drop n s)
      | None => s
      end
  end.

Definition lstrip (s : string) : string := lstrip_fuel (String.length s) s.

(** Does the tail of [s] consist of white space only? *)
Definition blank (s : string) : bool :=
  match lstrip s with EmptyString => true | _ => false end.

(** [s.rstrip()]: cut where only white space follows. *)
Fixpoint rstrip (s : string) : string :=
  match s with
  | EmptyString => EmptyString
  | String c rest => if blank s then EmptyString else String c (rstrip rest)
  end.

(** [s.strip()] *)
Definition strip (s : string) : string := rstrip (lstrip s).

(** [a > b] on strings. *)
Definition gt (a b : string) : bool :=
  match String.compare a b with Gt => true | _ => false end.

End PyStr.

(** ** Data model *)

(** [AssetInfo] (the dataclass). *)
Record AssetInfo : Type := mkAssetInfo {
  name : string;
  asset_url : string;
  repo_url : string;
  stars : string;
  godot_version : string;
  last_updated : string
}.

(** A parsed document or one of its elements (BeautifulSoup's [Tag]; the
    [BeautifulSoup] object is a [Tag] too).  The CSS engine belongs to the
    library, so an element carries its own answers to [select]:
    [tag_select t sel] lists the matches of selector [sel] below [t] in
    document order.  [tag_attrs] is the attribute dictionary and [tag_text]
    the [.text] property.  A [Tag] is truthy whatever it holds (its
    [__bool__] returns [True]), and so is a dataclass instance: the tests
    [if not soup], [if repo_soup] and the two [:=] tests of [scrape_all]
    tell [None] from a value, which is a [match] on an [option] here. *)
#[local] Set Warnings "-register-all".
Inductive Tag : Type := mkTag {
  tag_attrs : gmap string string;
  tag_text : string;
  tag_select : string -> list Tag
}.

(** [t.select_one(sel)]: the first match, or [None]. *)
Definition select_one (t : Tag) (sel : string) : option Tag :=
  head (tag_select t sel).

(** The exceptions the scraper can meet once the HTTP errors are caught. *)
Inductive exn : Type :=
| AttributeError (attr : string)   (* 'NoneType' object has no attribute [attr] *)
| TypeError (operation : string)   (* [None] where a [str] is required *)
| UnboundLocalError (var : string).

Inductive res (A : Type) : Type :=
| Ret (a : A)
| Raise (e : exn).
Arguments Ret {A} a.
Arguments Raise {A} e.

(** The records written to the log file, by call site. *)
Inductive log_record : Type :=
| LogFetchFailed (url : string)        (* error "Failed to fetch {url}: ..." *)
| LogScrapeFailed (e : exn)            (* error "Failed to scrape asset: {e}" *)
| LogPage (page : nat) (max_pages : Z) (* info "Scraping page {page + 1}/{max_pages}" *)
| LogScraped (asset_name : string)     (* info "Scraped: {name}" *)
| LogCompleted (total : nat)           (* info "Scraping completed. Total assets: ..." *)
| LogFailedCount (failed : nat).       (* info "Failed URLs: ..." *)

(** The scraper object together with what it has done to the outside:
    [requests] lists the GET requests issued so far (oldest first) and
    [log] the log records written (oldest first). *)
Record state : Type := mkState {
  asset_dict : gmap string AssetInfo;
  failed_urls : gset string;
  requests : list string;
  log : list log_record
}.

(** [GodotAssetScraper()] *)
Definition init : state :=
  {| asset_dict := ∅; failed_urls := ∅; requests := []; log := [] |}.

Definition set_asset_dict (d : gmap string AssetInfo) (st : state) : state :=
  {| asset_dict := d; failed_urls := failed_urls st;
     requests := requests st; log := log st |}.

Definition add_failed (url : string) (st : state) : state :=
  {| asset_dict := asset_dict st; failed_urls := {[url]} ∪ failed_urls st;
     requests := requests st; log := log st |}.

Definition add_request (url : string) (st : state) : state :=
  {| asset_dict := asset_dict st; failed_urls := failed_urls st;
     requests := requests st ++ [url]; log := log st |}.

Definition add_log (r : log_record) (st : state) : state :=
  {| asset_dict := asset_dict st; failed_urls := failed_urls st;
     requests := requests st; log := log st ++ [r] |}.

(** ** Stateful computations that may raise *)

Definition M (A : Type) : Type := state -> res A * state.

Definition ret {A} (a : A) : M A := fun st => (Ret a, st).

Definition bind {A B} (m : M A) (k : A -> M B) : M B :=
  fun st =>
    match m st with
    | (Ret a, st') => k a st'
    | (Raise e, st') => (Raise e, st')
    end.

Definition lift {A} (r : res A) : M A := fun st => (r, st).

Definition logging (r : log_record) : M unit := fun st => (Ret tt, add_log r st).

Declare Scope scraper_scope.
Delimit Scope scraper_scope with scraper.
Notation "x <- m ;; k" := (bind m (fun x => k))
  (at level 100, m at next level, right associativity) : scraper_scope.
Notation "m ;;; k" := (bind m (fun _ => k))
  (at level 100, right associativity) : scraper_scope.
Local Open Scope scraper_scope.

(** [for x in xs: body(x)] *)
Fixpoint for_each {A} (body : A -> M unit) (xs : list A) : M unit :=
  match xs with
  | [] => ret tt
  | x :: rest => body x ;;; for_each body rest
  end.

(** ** Pure helpers of [GodotAssetScraper] *)

Definition BASE_URL : string := "https://godotengine.org".

(** [elem.get(key)] on the result of [select_one]. *)
Definition get_attr (elem : option Tag) (key : string) : res (option string) :=
  match elem with
  | None => Raise (AttributeError "get")
  | Some t => Ret (tag_attrs t !! key)
  end.

(** [elem.text] on the result of [select_one]. *)
Definition get_text (elem : option Tag) : res string :=
  match elem with
  | None => Raise (AttributeError "text")
  | Some t => Ret (tag_text t)
  end.

(** [_parse_stars] *)
Definition _parse_stars (soup : Tag) (repo_url : string) : res string :=
  if PyStr.contains "github" repo_url then
    match select_one soup ".js-social-count" with
    | None => Raise (AttributeError "get")
    | Some elem => Ret (PyStr.replace "," "" (default "" (tag_attrs elem !! "title")))
    end
  else if PyStr.contains "gitlab" repo_url then
    match get_text (select_one soup ".star-count") with
    | Ret text => Ret (PyStr.strip text)
    | Raise e => Raise e
    end
  else Ret "0".

(** [_clean_repo_url] *)
Definition _clean_repo_url (repo_url : string) : string :=
  if PyStr.contains "github" repo_url
  then PyStr.join "/" (firstn 5 (PyStr.split_max "/" repo_url 5))
  else repo_url.

(** The page URL built in [scrape_all]. *)
Definition page_url (page : nat) : string :=
  BASE_URL +:+ "/asset-library/asset?max_results=100&page=" +:+ pretty page
           +:+ "&sort=updated".

(** [range(n)] *)
Definition range (n : Z) : list nat := seq 0 (Z.to_nat n).

(** The [lambda] of [save_results]. *)
Definition stars_lambda (x : string) : string :=
  PyStr.replace "k" "00" (PyStr.replace "." "" x).

(** Lines 100-103 of [scrape_all] on the dictionary: the new record is
    dropped when the stored one has a greater [godot_version], and stored
    otherwise. *)
Definition merge (asset_info : AssetInfo) (d : gmap string AssetInfo)
  : gmap string AssetInfo :=
  match d !! asset_url asset_info with
  | Some previous_info =>
      if PyStr.gt (godot_version previous_info) (godot_version asset_info)
      then d
      else <[asset_url asset_info := asset_info]> d
  | None => <[asset_url asset_info := asset_info]> d
  end.

(** The records seen along a [for_each]: [seen x st] lists those of the
    iteration [body x] started in [st]; an iteration that raises ends the
    loop. *)
Fixpoint trace_each {A} (body : A -> M unit) (seen : A -> state -> list AssetInfo)
    (xs : list A) (st : state) : list AssetInfo :=
  match xs with
  | [] => []
  | x :: rest =>
      seen x st ++ match body x st with
                   | (Ret _, st') => trace_each body seen rest st'
                   | (Raise _, _) => []
                   end
  end.

(** The dedup rule applied to a sequence of records, oldest first. *)
Definition merge_all (records : list AssetInfo) (d : gmap string AssetInfo)
  : gmap string AssetInfo :=
  fold_left (fun acc asset_info => merge asset_info acc) records d.

(** The records for [url] among [records], and their tags. *)
Definition tags_for (url : string) (records : list AssetInfo) : list string :=
  List.map godot_version
    (List.filter (fun asset_info => String.eqb (asset_url asset_info) url) records).

(** A computation that leaves [asset_dict] as it found it, whatever its
    outcome. *)
Definition keeps_dict {A} (m : M A) : Prop :=
  forall st, asset_dict (snd (m st)) = asset_dict st.

(** ** The scraper, over a given network *)

Section Scraper.

(** The network: [net n url] is the outcome of a GET of [url] issued
    after [n] earlier requests, [Some soup] for a response that passes
    [raise_for_status] (already parsed), [None] for a
    [RequestException]. *)
Variable net : nat -> string -> option Tag.

(** [_make_request]: the [RequestException] is logged and becomes [None].
    The rate-limiting sleep after a successful response takes time only
    and is left out. *)
Definition _make_request (url : string) : M (option Tag) :=
  fun st =>
    match net (length (requests st)) url with
    | Some soup => (Ret (Some soup), add_request url st)
    | None => (Ret None, add_log (LogFetchFailed url) (add_request url st))
    end.

(** Lines 61-62 of [scrape_asset], which bind the local [asset_url]. *)
Definition resolve_asset_url (item : Tag) : res string :=
  match get_attr (select_one item ".asset-header") "href" with
  | Raise e => Raise e
  | Ret None => Raise (TypeError "str + None")
  | Ret (Some href) => Ret (BASE_URL +:+ href)
  end.

(** Lines 64-81 of [scrape_asset]: the rest of the [try] block, run with
    [asset_url] bound. *)
Definition scrape_fields (item : Tag) (asset_url : string) : M (option AssetInfo) :=
  asset_soup <- _make_request asset_url ;;
  match asset_soup with
  | None => ret None
  | Some asset_soup =>
      href <- lift (get_attr (select_one asset_soup ".container a.btn-default") "href") ;;
      repo_url <- lift (match href with
                        | Some raw => Ret (_clean_repo_url raw)
                        | None => Raise (TypeError "'github' in None")
                        end) ;;
      repo_soup <- _make_request repo_url ;;
      stars <- lift (match repo_soup with
                     | Some soup => _parse_stars soup repo_url
                     | None => Ret "0"
                     end) ;;
      title <- lift (get_text (select_one item ".asset-title h4")) ;;
      label <- lift (get_text (select_one item ".asset-tags .label-info")) ;;
      footer <- lift (get_text (select_one item ".asset-footer span")) ;;
      ret (Some {| name := PyStr.strip title;
                   asset_url := asset_url;
                   repo_url := repo_url;
                   stars := stars;
                   godot_version := PyStr.strip label;
                   last_updated :=
                     PyStr.strip (List.last (PyStr.rsplit "|" footer) "") |})
  end.

(** The [except Exception] clause of [scrape_asset].  [asset_url] is the
    local variable as the handler finds it: [None] while it is unbound,
    and reading it then raises [UnboundLocalError] out of the handler. *)
Definition except_handler (e : exn) (asset_url : option string) : M (option AssetInfo) :=
  logging (LogScrapeFailed e) ;;;
  match asset_url with
  | None => lift (Raise (UnboundLocalError "asset_url"))
  | Some url => fun st => (Ret None, add_failed url st)
  end.

(** [scrape_asset] *)
Definition scrape_asset (item : Tag) : M (option AssetInfo) :=
  fun st =>
    match resolve_asset_url item with
    | Raise e => except_handler e None st
    | Ret asset_url =>
        match scrape_fields item asset_url st with
        | (Raise e, st') => except_handler e (Some asset_url) st'
        | returned => returned
        end
    end.

(** The body of the inner loop of [scrape_all] (lines 98-103). *)
Definition item_step (item : Tag) : M unit :=
  scraped <- scrape_asset item ;;
  match scraped with
  | Some asset_info =>
      logging (LogScraped (name asset_info)) ;;;
      fun st => (Ret tt, set_asset_dict (merge asset_info (asset_dict st)) st)
  | None => ret tt
  end.

(** The body of the outer loop of [scrape_all] (lines 90-103). *)
Definition page_step (max_pages : Z) (page : nat) : M unit :=
  logging (LogPage page max_pages) ;;;
  soup <- _make_request (page_url page) ;;
  match soup with
  | None => ret tt
  | Some soup => for_each item_step (tag_select soup ".asset-item")
  end.

(** The two summary records at the end of [scrape_all]. *)
Definition summary : M unit :=
  fun st =>
    (Ret tt,
     add_log (LogFailedCount (size (failed_urls st)))
       (add_log (LogCompleted (size (asset_dict st))) st)).

(** [scrape_all] *)
Definition scrape_all (max_pages : Z) : M unit :=
  for_each (page_step max_pages) (range max_pages) ;;; summary.

(** *** What a run extracts

    The records returned by [scrape_asset] in the course of a run, in the
    order of the calls.  They are not kept by the scraper (the log has the
    names only); they are what the dedup rule is fed with. *)

(** The record of one iteration of the inner loop started in [st]. *)
Definition item_extracted (item : Tag) (st : state) : list AssetInfo :=
  match scrape_asset item st with
  | (Ret (Some asset_info), _) => [asset_info]
  | _ => []
  end.

(** The records of one iteration of the outer loop started in [st]. *)
Definition page_extracted (max_pages : Z) (page : nat) (st : state) : list AssetInfo :=
  match _make_request (page_url page) (add_log (LogPage page max_pages) st) with
  | (Ret (Some soup), st') =>
      trace_each item_step item_extracted (tag_select soup ".asset-item") st'
  | _ => []
  end.

(** The records of a whole [scrape_all]. *)
Definition extracted (max_pages : Z) (st : state) : list AssetInfo :=
  trace_each (page_step max_pages) (page_extracted max_pages) (range max_pages) st.

(** The [godot_version] of every record extracted for [url], in order. *)
Definition tags_seen (max_pages : Z) (st : state) (url : string) : list string :=
  tags_for url (extracted max_pages st).

End Scraper.

(** ** A small catalogue to run the scraper on *)

Module Sample.

(** An element without descendants. *)
Definition elem (attrs : list (string * string)) (text : string) : Tag :=
  mkTag (list_to_map attrs) text (fun _ => []).

(** A node that answers each selector of [table] with the listed matches. *)
Definition node (table : list (string * list Tag)) : Tag :=
  mkTag ∅ "" (fun sel =>
    match List.find (fun row => String.eqb (fst row) sel) table with
    | Some row => snd row
    | None => []
    end).

(** One [.asset-item] of a listing page. *)
Definition listing_item (href title label footer : string) : Tag :=
  node [ (".asset-header", [elem [("href", href)] ""]);
         (".asset-title h4", [elem [] title]);
         (".asset-tags .label-info", [elem [] label]);
         (".asset-footer span", [elem [] footer]) ].

Definition detail_page (repo_href : string) : Tag :=
  node [ (".container a.btn-default", [elem [("href", repo_href)] "View files"]) ].

Definition github_page (title : string) : Tag :=
  node [ (".js-social-count", [elem [("title", title)] "1.2k"]) ].

(** A listing entry without its [.asset-header] link. *)
Definition headless_item : Tag :=
  node [ (".asset-title h4", [elem [] "Orphan"]);
         (".asset-tags .label-info", [elem [] "4.2"]);
         (".asset-footer span", [elem [] "MIT | 2024-01-01"]) ].

Definition item_old : Tag :=
  listing_item "/asset-library/asset/7" " Dialogue " "4.2" "Tools | MIT | 2024-01-01 ".
Definition item_new : Tag :=
  listing_item "/asset-library/asset/7" " Dialogue " "4.10" "Tools | MIT | 2024-06-01 ".

Definition page0 : Tag := node [ (".asset-item", [item_old; item_new]) ].
Definition page_headless : Tag := node [ (".asset-item", [headless_item; item_old]) ].
Definition page0_swapped : Tag := node [ (".asset-item", [item_new; item_old]) ].

(** A network that serves [listing] as page 0, the detail page of asset
    7 and its GitHub repository, and fails every other request. *)
Definition serve (listing : Tag) : nat -> string -> option Tag :=
  fun _ url =>
    if String.eqb url (page_url 0) then Some listing
    else if String.eqb url "https://godotengine.org/asset-library/asset/7"
    then Some (detail_page "https://github.com/owner/dialogue/tree/main")
    else if String.eqb url "https://github.com/owner/dialogue"
    then Some (github_page "1,234")
    else None.

(** A network on which every request fails. *)
Definition offline : nat -> string -> option Tag := fun _ _ => None.

(** A network that serves the detail page of asset 7 and, for its GitHub
    repository, a page without the star counter. *)
Definition serve_bare : nat -> string -> option Tag :=
  fun _ url =>
    if String.eqb url "https://godotengine.org/asset-library/asset/7"
    then Some (detail_page "https://github.com/owner/dialogue/tree/main")
    else if String.eqb url "https://github.com/owner/dialogue"
    then Some (node [])
    else None.

(** The state after page 0 of a three-page crawl of [serve page0]. *)
Definition after_page0 : state :=
  snd (for_each (page_step (serve page0) 3) (seq 0 1) init).

(** The answers of [serve page0], which do not depend on the time, and the
    state after a two-page crawl of them. *)
Definition web0 : string -> option Tag := serve page0 0.

Definition after_crawl : state := snd (scrape_all (fun _ => web0) 2 init).

(** Two records of one asset with the same [godot_version]. *)
Definition record_first : AssetInfo :=
  {| name := "Dialogue";
     asset_url := "https://godotengine.org/asset-library/asset/7";
     repo_url := "https://github.com/owner/dialogue";
     stars := "1234";
     godot_version := "4.2";
     last_updated := "2024-01-01" |}.

Definition record_again : AssetInfo :=
  {| name := "Dialogue";
     asset_url := "https://godotengine.org/asset-library/asset/7";
     repo_url := "https://github.com/owner/dialogue";
     stars := "1300";
     godot_version := "4.2";
     last_updated := "2024-03-01" |}.

End Sample.


(** ** The export-time normalisation of [stars] ([save_results]) *)

(** [pd.to_numeric] on the strings made of ASCII decimal digits only, whose
    value fits [int64]; these are the strings the examples need.  Every
    other string (sign, exponent, blanks, [nan], overflow) is outside this
    fragment and is mapped to [None]. *)
Fixpoint digits_value (acc : Z) (s : string) : option Z :=
  match s with
  | EmptyString => Some acc
  | String c rest =>
      let code := Z.of_N (N_of_ascii c) in
      if ((48 <=? code) && (code <=? 57))%Z
      then digits_value (10 * acc + (code - 48)) rest
      else None
  end.

Definition to_numeric (s : string) : option Z :=
  match s with
  | EmptyString => None
  | _ => match digits_value 0 s with
         | Some v => if (v <? 2 ^ 63)%Z then Some v else None
         | None => None
         end
  end.

(** The number exported for a stored [stars] string. *)
Definition exported_stars (x : string) : option Z := to_numeric (stars_lambda x).

(** The normalisation in the words of the specification: strip the period
    characters, then replace a trailing ["k"] with two zero digits. *)
Fixpoint strip_periods (s : string) : string :=
  match s with
  | EmptyString => EmptyString
  | String c rest =>
      if Ascii.eqb c "." then strip_periods rest else String c (strip_periods rest)
  end.

Fixpoint replace_trailing_k (s : string) : string :=
  match s with
  | EmptyString => EmptyString
  | String c EmptyString => if Ascii.eqb c "k" then "00" else s
  | String c rest => String c (replace_trailing_k rest)
  end.

Definition normalize_spec (x : string) : string :=
  replace_trailing_k (strip_periods x).

(** Every ["k"] replaced by two zero digits. *)
Fixpoint replace_every_k (s : string) : string :=
  match s with
  | EmptyString => EmptyString
  | String c rest =>
      if Ascii.eqb c "k" then String "0" (String "0" (replace_every_k rest))
      else String c (replace_every_k rest)
  end.

(** No ["k"] in [s] before its last character. *)
Fixpoint k_only_last (s : string) : bool :=
  match s with
  | EmptyString => true
  | String c EmptyString => true
  | String c rest => negb (Ascii.eqb c "k") && k_only_last rest
  end.

(** ** The host of a URL, in the words of the specification *)

(** Scheme, host, owner and repository are the first five ['/']-separated
    segments of a URL (["https:"], [""], host, owner, repo): the host is
    the third. *)
Definition url_host (url : string) : string :=
  nth 2 (PyStr.split "/" url) "".

(** The dedup rule on the entry of one URL: what is stored for the URL
    once one more record for it has arrived. *)
Definition merge_entry (stored : option AssetInfo) (asset_info : AssetInfo)
  : option AssetInfo :=
  match stored with
  | Some previous_info =>
      if PyStr.gt (godot_version previous_info) (godot_version asset_info)
      then Some previous_info
      else Some asset_info
  | None => Some asset_info
  end.

(** ** What a computation leaves in place *)

(** [st'] keeps what [st] has recorded: every failed URL of [st], and the
    requests and the log of [st] in their order, with possibly more after
    them. *)
Definition grows (st st' : state) : Prop :=
  failed_urls st ⊆ failed_urls st'
  /\ requests st `prefix_of` requests st'
  /\ log st `prefix_of` log st'.

(** A computation that only adds to these, whatever its outcome. *)
Definition growing {A} (m : M A) : Prop :=
  forall st outcome st', m st = (outcome, st') -> grows st st'.

(** * Properties *)

(** ** The string primitives on examples *)

Example contains_github : PyStr.contains "github" "https://github.com/o/r" = true.
Proof. reflexivity. Qed.

Example split_max_example :
  PyStr.split_max "/" "https://github.com/owner/repo/issues/5" 5
  = ["https:"; ""; "github.com"; "owner"; "repo"; "issues/5"].
Proof. reflexivity. Qed.

Example replace_example : PyStr.replace "k" "00" (PyStr.replace "." "" "1.2k") = "1200".
Proof. reflexivity. Qed.

Example strip_example : PyStr.strip "  4.2 " = "4.2".
Proof. reflexivity. Qed.

Example gt_example : PyStr.gt "4.2" "4.10" = true.
Proof. reflexivity. Qed.

(** ** Facts about the string primitives *)

Section StringFacts.

Lemma prefix_one (c d : ascii) (rest : string) :
  String.prefix (String c EmptyString) (String d rest) = Ascii.eqb c d.
Proof.
  simpl. destruct (ascii_dec c d) as [->|Hne].
  - rewrite Ascii.eqb_refl. now destruct rest.
  - symmetry. now apply Ascii.eqb_neq.
Qed.

(** Replacing a one-character pattern acts character by character. *)
Lemma replace_char_cons (c d : ascii) (new rest : string) :
  PyStr.replace (String c EmptyString) new (String d rest)
  = if Ascii.eqb c d
    then String.append new (PyStr.replace (String c EmptyString) new rest)
    else String d (PyStr.replace (String c EmptyString) new rest).
Proof.
  unfold PyStr.replace. cbn [PyStr.replace_from].
  rewrite prefix_one. reflexivity.
Qed.

Lemma replace_period (s : string) : PyStr.replace "." "" s = strip_periods s.
Proof.
  induction s as [|d rest IH]; [reflexivity|].
  rewrite replace_char_cons. cbn [strip_periods].
  rewrite (Ascii.eqb_sym d "."). destruct (Ascii.eqb "." d); simpl; now rewrite IH.
Qed.

Lemma strip_periods_k_only_last (s : string) :
  k_only_last s = true -> k_only_last (strip_periods s) = true.
Proof.
  induction s as [|c rest IH]; [reflexivity|].
  intros Hk. cbn [strip_periods].
  destruct rest as [|c' rest'].
  - simpl. now destruct (Ascii.eqb c ".").
  - cbn [k_only_last] in Hk. apply andb_prop in Hk as [Hc Hrest].
    specialize (IH Hrest).
    destruct (Ascii.eqb c "."); [exact IH|].
    cbn [k_only_last].
    set (t := strip_periods (String c' rest')) in *.
    destruct t; [reflexivity|]. now rewrite Hc, IH.
Qed.

Lemma replace_k_only_last (s : string) :
  k_only_last s = true -> PyStr.replace "k" "00" s = replace_trailing_k s.
Proof.
  induction s as [|c rest IH]; [reflexivity|].
  intros Hk. rewrite replace_char_cons.
  destruct rest as [|c' rest'].
  - change (PyStr.replace "k" "00" "") with "". cbn [replace_trailing_k].
    rewrite (Ascii.eqb_sym c "k"). now destruct (Ascii.eqb "k" c).
  - cbn [k_only_last] in Hk. apply andb_prop in Hk as [Hc Hrest].
    rewrite (IH Hrest). cbn [replace_trailing_k].
    rewrite (Ascii.eqb_sym "k" c). apply negb_true_iff in Hc. now rewrite Hc.
Qed.

Lemma split_max_firstn (sep : ascii) (s : string) (n : nat) :
  firstn n (PyStr.split_max sep s n) = firstn n (PyStr.split sep s).
Proof.
  revert n. induction s as [|c rest IH]; intros n.
  - reflexivity.
  - destruct n as [|n]; [reflexivity|].
    cbn [PyStr.split_max PyStr.split].
    destruct (Ascii.eqb c sep).
    + cbn [firstn]. now rewrite IH.
    + specialize (IH (S n)).
      destruct (PyStr.split_max sep rest (S n)) as [|h t],
               (PyStr.split sep rest) as [|h' t'];
        cbn [firstn] in *; try discriminate; try reflexivity.
      injection IH as -> Ht. now rewrite Ht.
Qed.

End StringFacts.

(** *** Substrings *)

Section Substrings.

Lemma contains_unfold (sub s : string) :
  PyStr.contains sub s
  = if String.prefix sub s then true
    else match s with
         | EmptyString => false
         | String _ rest => PyStr.contains sub rest
         end.
Proof. destruct s; reflexivity. Qed.

Lemma append_nil_l (s : string) : "" +:+ s = s.
Proof. reflexivity. Qed.

Lemma append_cons (c : ascii) (a b : string) : String c a +:+ b = String c (a +:+ b).
Proof. reflexivity. Qed.

Lemma append_assoc (a b c : string) : (a +:+ b) +:+ c = a +:+ b +:+ c.
Proof.
  induction a as [|x a IH]; [reflexivity|].
  now rewrite !append_cons, IH.
Qed.

Lemma prefix_append (sub post : string) : String.prefix sub (sub +:+ post) = true.
Proof.
  induction sub as [|c sub IH].
  - rewrite append_nil_l. now destruct post.
  - rewrite append_cons. cbn [String.prefix].
    destruct (ascii_dec c c); [exact IH | congruence].
Qed.

Lemma prefix_split (sub s : string) :
  String.prefix sub s = true -> exists post, s = sub +:+ post.
Proof.
  revert s. induction sub as [|c sub IH]; intros s H.
  - now exists s.
  - destruct s as [|d s]; cbn [String.prefix] in H; [discriminate|].
    destruct (ascii_dec c d) as [->|]; [|discriminate].
    destruct (IH s H) as [post ->]. now exists post.
Qed.

Lemma contains_intro (sub pre post : string) :
  PyStr.contains sub (pre +:+ sub +:+ post) = true.
Proof.
  induction pre as [|c pre IH].
  - rewrite contains_unfold, append_nil_l. now rewrite prefix_append.
  - rewrite contains_unfold, append_cons.
    destruct (String.prefix sub (String c (pre +:+ sub +:+ post))); [reflexivity|].
    exact IH.
Qed.

Lemma contains_elim (sub s : string) :
  PyStr.contains sub s = true -> exists pre post, s = pre +:+ sub +:+ post.
Proof.
  induction s as [|c s IH]; rewrite contains_unfold.
  - destruct (String.prefix sub "") eqn:Hp; [|discriminate].
    intros _. apply prefix_split in Hp as [post Hp]. now exists "", post.
  - destruct (String.prefix sub (String c s)) eqn:Hp.
    + intros _. apply prefix_split in Hp as [post Hp]. now exists "", post.
    + intros H. destruct (IH H) as (pre & post & ->).
      now exists (String c pre), post.
Qed.

(** A substring of a substring is a substring. *)
Lemma contains_inside (sub pre mid post : string) :
  PyStr.contains sub mid = true ->
  PyStr.contains sub (pre +:+ mid +:+ post) = true.
Proof.
  intros H. apply contains_elim in H as (a & b & ->).
  rewrite <- (append_assoc pre), !append_assoc.
  rewrite <- (append_assoc pre a). apply contains_intro.
Qed.

(** The first piece of a split is a prefix of the string. *)
Lemma split_head (sep : ascii) (s : string) :
  exists h t post, PyStr.split sep s = h :: t /\ s = h +:+ post.
Proof.
  induction s as [|c s IH]; cbn [PyStr.split].
  - now exists "", [], "".
  - destruct (Ascii.eqb c sep).
    + now exists "", (PyStr.split sep s), (String c s).
    + destruct IH as (h & t & post & -> & ->).
      now exists (String c h), t, post.
Qed.

(** Every piece of a split occurs in the string. *)
Lemma split_piece (sep : ascii) (s : string) (i : nat) (p : string) :
  nth_error (PyStr.split sep s) i = Some p ->
  exists pre post, s = pre +:+ p +:+ post.
Proof.
  revert i. induction s as [|c s IH]; intros i; cbn [PyStr.split].
  - destruct i as [|[|i]]; simpl; [|discriminate..].
    intros [= <-]. now exists "", "".
  - destruct (Ascii.eqb c sep).
    + destruct i as [|i]; simpl.
      * intros [= <-]. now exists "", (String c s).
      * intros H. destruct (IH _ H) as (pre & post & ->).
        now exists (String c pre), post.
    + destruct (split_head sep s) as (h & t & post & Hs & Hp).
      rewrite Hs in *. destruct i as [|i]; simpl.
      * intros [= <-]. exists "", post. now rewrite append_nil_l, append_cons, <- Hp.
      * intros H. destruct (IH (S i) H) as (pre & post' & ->).
        now exists (String c pre), post'.
Qed.

(** What occurs in the host of a URL occurs in the URL. *)
Lemma contains_host (sub url : string) :
  PyStr.contains sub (url_host url) = true -> PyStr.contains sub url = true.
Proof.
  unfold url_host. intros H.
  destruct (nth_error (PyStr.split "/" url) 2) as [p|] eqn:Hnth.
  - rewrite (nth_error_nth _ _ _ Hnth) in H.
    destruct (split_piece _ _ _ _ Hnth) as (pre & post & Hurl).
    rewrite Hurl. now apply contains_inside.
  - apply nth_error_None in Hnth. rewrite nth_overflow in H by exact Hnth.
    apply contains_elim in H as (pre & post & H).
    destruct pre; [|discriminate]. destruct sub; [|discriminate].
    now destruct url.
Qed.

End Substrings.

(** *** The order behind [>] *)

Section Order.

Lemma gt_false_le (a b : string) : PyStr.gt a b = false <-> String.le a b.
Proof.
  unfold PyStr.gt, String.le, String.leb.
  destruct (String.compare a b); simpl; intuition discriminate.
Qed.

Lemma gt_irrefl (a : string) : PyStr.gt a a = false.
Proof. apply gt_false_le. reflexivity. Qed.

Lemma gt_asym (a b : string) : PyStr.gt a b = true -> PyStr.gt b a = false.
Proof.
  unfold PyStr.gt. rewrite (String.compare_antisym a b).
  now destruct (String.compare b a).
Qed.

Lemma ge_trans (a b c : string) :
  PyStr.gt a b = false -> PyStr.gt b c = false -> PyStr.gt a c = false.
Proof.
  rewrite !gt_false_le. intros Hab Hbc. now transitivity b.
Qed.

Lemma gt_neq (a b : string) : PyStr.gt a b = true -> a <> b.
Proof. intros H ->. rewrite gt_irrefl in H. discriminate. Qed.

End Order.

(** ** The export-time normalisation *)

Lemma replace_k (s : string) : PyStr.replace "k" "00" s = replace_every_k s.
Proof.
  induction s as [|c rest IH]; [reflexivity|].
  rewrite replace_char_cons. cbn [replace_every_k].
  rewrite (Ascii.eqb_sym c "k"), IH. reflexivity.
Qed.

(** C3, as stated, fails: a ["k"] that is not the last character is
    replaced as well.  ["2k5"] is exported as 2005, while replacing only a
    trailing ["k"] leaves it as it is. *)
Lemma stars_lambda_inner_k :
  stars_lambda "2k5" = "2005" /\ normalize_spec "2k5" = "2k5"
  /\ stars_lambda "2k5" <> normalize_spec "2k5".
Proof. repeat split. discriminate. Qed.

(** C3 (amended): for every stored [stars] string the export-time
    normalisation strips every period and then replaces every ["k"], at the
    end or not, with two zero digits; on a string with no ["k"] before its
    last character this is the replacement of a trailing ["k"]; ["1.2k"] is
    exported as 1200, ["340"] as 340 and ["0"] as 0. *)
Theorem stars_normalisation :
  (forall x, stars_lambda x = replace_every_k (strip_periods x))
  /\ (forall x, k_only_last x = true -> stars_lambda x = normalize_spec x)
  /\ exported_stars "1.2k" = Some 1200%Z
  /\ exported_stars "340" = Some 340%Z
  /\ exported_stars "0" = Some 0%Z.
Proof.
  split; [|split; [|repeat split]].
  - intros x. unfold stars_lambda. now rewrite replace_period, replace_k.
  - intros x Hk. unfold stars_lambda, normalize_spec.
    rewrite replace_period. apply replace_k_only_last.
    now apply strip_periods_k_only_last.
Qed.

Lemma stars_normalisation_witness :
  k_only_last "1.2k" = true /\ stars_lambda "1.2k" = normalize_spec "1.2k".
Proof.
  split; [reflexivity|].
  apply (proj1 (proj2 stars_normalisation) "1.2k"). reflexivity.
Defined.

(** ** [_clean_repo_url] *)

(** C5, as stated, fails for a host without ["github"] when ["github"]
    occurs further on in the URL: the test is on the whole URL. *)
Lemma clean_repo_url_other_host :
  PyStr.contains "github" (url_host "https://gitlab.com/mirrors/github-tools/-/issues/5") = false
  /\ _clean_repo_url "https://gitlab.com/mirrors/github-tools/-/issues/5"
     = "https://gitlab.com/mirrors/github-tools"
  /\ _clean_repo_url "https://gitlab.com/mirrors/github-tools/-/issues/5"
     <> "https://gitlab.com/mirrors/github-tools/-/issues/5".
Proof. repeat split. discriminate. Qed.

(** C5 (amended): [_clean_repo_url] returns the first five ['/']-separated
    segments of the URL, joined by ['/'], when ["github"] occurs anywhere in
    the URL, which includes every URL whose host contains ["github"]; it
    returns the URL unchanged when ["github"] occurs nowhere in it.
    ["https://github.com/owner/repo/issues/5"] is mapped to
    ["https://github.com/owner/repo"] and a GitLab URL without ["github"]
    is returned as it is. *)
Theorem clean_repo_url_spec (url : string) :
  (PyStr.contains "github" url = true ->
   _clean_repo_url url = PyStr.join "/" (firstn 5 (PyStr.split "/" url)))
  /\ (PyStr.contains "github" (url_host url) = true ->
      _clean_repo_url url = PyStr.join "/" (firstn 5 (PyStr.split "/" url)))
  /\ (PyStr.contains "github" url = false -> _clean_repo_url url = url)
  /\ _clean_repo_url "https://github.com/owner/repo/issues/5"
     = "https://github.com/owner/repo"
  /\ _clean_repo_url "https://gitlab.com/owner/repo/-/issues/5"
     = "https://gitlab.com/owner/repo/-/issues/5".
Proof.
  assert (Hurl : PyStr.contains "github" url = true ->
                 _clean_repo_url url = PyStr.join "/" (firstn 5 (PyStr.split "/" url))).
  { intros H. unfold _clean_repo_url. now rewrite H, split_max_firstn. }
  split; [exact Hurl|]. split; [|split; [|split; reflexivity]].
  - intros H. apply Hurl. now apply contains_host.
  - intros H. unfold _clean_repo_url. now rewrite H.
Qed.

Lemma clean_repo_url_spec_witness :
  PyStr.contains "github" (url_host "https://github.com/owner/repo/tree/main") = true
  /\ _clean_repo_url "https://github.com/owner/repo/tree/main"
     = PyStr.join "/" (firstn 5 (PyStr.split "/" "https://github.com/owner/repo/tree/main")).
Proof.
  split; [reflexivity|].
  apply (proj1 (proj2 (clean_repo_url_spec "https://github.com/owner/repo/tree/main"))).
  reflexivity.
Defined.

(** ** [_parse_stars] *)

(** C10: on a repository URL containing ["github"], when the
    [.js-social-count] element is present without a [title] attribute
    [_parse_stars] returns the empty string; when the element is absent it
    raises. *)
Theorem parse_stars_without_title (soup : Tag) (repo_url : string) :
  PyStr.contains "github" repo_url = true ->
  (forall elem, select_one soup ".js-social-count" = Some elem ->
                tag_attrs elem !! "title" = None ->
                _parse_stars soup repo_url = Ret "")
  /\ (select_one soup ".js-social-count" = None ->
      _parse_stars soup repo_url = Raise (AttributeError "get")).
Proof.
  intros Hgh. unfold _parse_stars. rewrite Hgh. split.
  - intros elem -> ->. reflexivity.
  - intros ->. reflexivity.
Qed.

Lemma parse_stars_without_title_witness :
  _parse_stars (Sample.node [(".js-social-count", [Sample.elem [("class", "Counter")] "12"])])
               "https://github.com/owner/repo" = Ret "".
Proof.
  refine (proj1 (parse_stars_without_title
                   (Sample.node [(".js-social-count", [Sample.elem [("class", "Counter")] "12"])])
                   "https://github.com/owner/repo" _)
                (Sample.elem [("class", "Counter")] "12") _ _);
    reflexivity.
Defined.

(** ** The dedup rule *)

(** C9: with a record stored for the same [asset_url], the new record is
    dropped exactly when the stored [godot_version] is strictly greater;
    otherwise, and so also when the two versions are equal, the new record
    replaces the stored one. *)
Theorem merge_replaces_unless_greater
    (asset_info previous_info : AssetInfo) (d : gmap string AssetInfo) :
  d !! asset_url asset_info = Some previous_info ->
  (PyStr.gt (godot_version previous_info) (godot_version asset_info) = true ->
   godot_version previous_info <> godot_version asset_info /\ merge asset_info d = d)
  /\ (PyStr.gt (godot_version previous_info) (godot_version asset_info) = false ->
      merge asset_info d = <[asset_url asset_info := asset_info]> d)
  /\ (godot_version previous_info = godot_version asset_info ->
      merge asset_info d = <[asset_url asset_info := asset_info]> d
      /\ merge asset_info d !! asset_url asset_info = Some asset_info).
Proof.
  intros Hprev. unfold merge. rewrite Hprev.
  split; [|split]; intros H.
  - split; [now apply gt_neq | now rewrite H].
  - now rewrite H.
  - rewrite H, gt_irrefl. split; [reflexivity | apply lookup_insert_eq].
Qed.

(** ** The extractor and the crawl loop *)

Create HintDb keeps discriminated.

Lemma keeps_ret {A} (a : A) : keeps_dict (ret a).
Proof. intros st. reflexivity. Qed.

Lemma keeps_lift {A} (r : res A) : keeps_dict (lift r).
Proof. intros st. reflexivity. Qed.

Lemma keeps_logging (r : log_record) : keeps_dict (logging r).
Proof. intros st. reflexivity. Qed.

Lemma keeps_bind {A B} (m : M A) (k : A -> M B) :
  keeps_dict m -> (forall a, keeps_dict (k a)) -> keeps_dict (bind m k).
Proof.
  intros Hm Hk st. unfold bind. specialize (Hm st).
  destruct (m st) as [[a|e] st']; simpl in *.
  - now rewrite Hk.
  - exact Hm.
Qed.

#[local] Hint Resolve keeps_ret keeps_lift keeps_logging : keeps.

Section ScraperFacts.

Variable net : nat -> string -> option Tag.

Lemma keeps_make_request (url : string) : keeps_dict (_make_request net url).
Proof.
  intros st. unfold _make_request.
  now destruct (net (length (requests st)) url).
Qed.

Lemma keeps_except_handler (e : exn) (asset_url : option string) :
  keeps_dict (except_handler e asset_url).
Proof.
  unfold except_handler. apply keeps_bind; [auto with keeps|].
  intros _. destruct asset_url; [|auto with keeps]. intros st. reflexivity.
Qed.

Lemma keeps_scrape_fields (item : Tag) (asset_url : string) :
  keeps_dict (scrape_fields net item asset_url).
Proof.
  unfold scrape_fields.
  apply keeps_bind; [apply keeps_make_request|].
  intros [asset_soup|]; [|auto with keeps].
  repeat (apply keeps_bind;
          [first [apply keeps_make_request | auto with keeps] | intros ?]).
  auto with keeps.
Qed.

(** [scrape_asset] never touches [asset_dict]. *)
Lemma keeps_scrape_asset (item : Tag) : keeps_dict (scrape_asset net item).
Proof.
  intros st. unfold scrape_asset.
  destruct (resolve_asset_url item) as [url|e].
  - pose proof (keeps_scrape_fields item url st) as Hf.
    destruct (scrape_fields net item url st) as [[o|e] st']; simpl in Hf.
    + exact Hf.
    + etransitivity; [apply keeps_except_handler | exact Hf].
  - apply keeps_except_handler.
Qed.

(** With [asset_url] unbound, the handler itself raises. *)
Lemma scrape_asset_unbound (item : Tag) (e : exn) (st : state) :
  resolve_asset_url item = Raise e ->
  scrape_asset net item st
  = (Raise (UnboundLocalError "asset_url"), add_log (LogScrapeFailed e) st).
Proof. intros H. unfold scrape_asset. now rewrite H. Qed.

(** With [asset_url] bound, whatever is raised later is caught: it is
    logged, the URL joins [failed_urls] and [None] is returned. *)
Lemma scrape_asset_caught (item : Tag) (url : string) (e : exn) (st st' : state) :
  resolve_asset_url item = Ret url ->
  scrape_fields net item url st = (Raise e, st') ->
  scrape_asset net item st
  = (Ret None, add_failed url (add_log (LogScrapeFailed e) st')).
Proof. intros H1 H2. unfold scrape_asset. now rewrite H1, H2. Qed.


Lemma resolve_asset_url_href (item header : Tag) (href : string) :
  select_one item ".asset-header" = Some header ->
  tag_attrs header !! "href" = Some href ->
  resolve_asset_url item = Ret (BASE_URL +:+ href).
Proof. intros H1 H2. unfold resolve_asset_url, get_attr. now rewrite H1, H2. Qed.

End ScraperFacts.

Section Extractor.

Variable net : nat -> string -> option Tag.

Lemma make_request_failed (url : string) (st : state) :
  net (length (requests st)) url = None ->
  _make_request net url st
  = (Ret None, add_log (LogFetchFailed url) (add_request url st)).
Proof. intros H. unfold _make_request. now rewrite H. Qed.

Lemma make_request_served (url : string) (soup : Tag) (st : state) :
  net (length (requests st)) url = Some soup ->
  _make_request net url st = (Ret (Some soup), add_request url st).
Proof. intros H. unfold _make_request. now rewrite H. Qed.

Lemma length_add_request (url : string) (st : state) :
  length (requests (add_request url st)) = S (length (requests st)).
Proof. simpl. rewrite length_app. simpl. lia. Qed.

(** C4: when the GET of the detail page fails, [scrape_asset] returns
    [None], the loop stores nothing for the asset, and [failed_urls] is as
    it was: the asset's URL is not added to it. *)
Theorem detail_fetch_failure (item header : Tag) (href : string) (st : state) :
  select_one item ".asset-header" = Some header ->
  tag_attrs header !! "href" = Some href ->
  net (length (requests st)) (BASE_URL +:+ href) = None ->
  let url := BASE_URL +:+ href in
  let st' := add_log (LogFetchFailed url) (add_request url st) in
  scrape_asset net item st = (Ret None, st')
  /\ item_step net item st = (Ret tt, st')
  /\ asset_dict st' = asset_dict st
  /\ failed_urls st' = failed_urls st
  /\ (url ∉ failed_urls st -> url ∉ failed_urls st').
Proof.
  intros Hheader Hhref Hnet url st'.
  assert (Hscrape : scrape_asset net item st = (Ret None, st')).
  { unfold scrape_asset.
    rewrite (resolve_asset_url_href _ _ _ Hheader Hhref).
    unfold scrape_fields, bind. now rewrite (make_request_failed _ _ Hnet). }
  split; [exact Hscrape|]. split; [|now repeat split].
  unfold item_step, bind. now rewrite Hscrape.
Qed.

(** C7: when the GET of the cleaned repository URL fails, [stars] is the
    literal ["0"], whatever the repository host ([_parse_stars] has no
    document to be called on), and [scrape_asset] still returns the complete
    record; nothing is added to [failed_urls]. *)
Theorem repo_fetch_failure
    (item header asset_soup link title label footer : Tag)
    (href raw : string) (st : state) :
  select_one item ".asset-header" = Some header ->
  tag_attrs header !! "href" = Some href ->
  net (length (requests st)) (BASE_URL +:+ href) = Some asset_soup ->
  select_one asset_soup ".container a.btn-default" = Some link ->
  tag_attrs link !! "href" = Some raw ->
  net (S (length (requests st))) (_clean_repo_url raw) = None ->
  select_one item ".asset-title h4" = Some title ->
  select_one item ".asset-tags .label-info" = Some label ->
  select_one item ".asset-footer span" = Some footer ->
  let url := BASE_URL +:+ href in
  let repo := _clean_repo_url raw in
  let st' := add_log (LogFetchFailed repo) (add_request repo (add_request url st)) in
  scrape_asset net item st
  = (Ret (Some {| name := PyStr.strip (tag_text title);
                  asset_url := url;
                  repo_url := repo;
                  stars := "0";
                  godot_version := PyStr.strip (tag_text label);
                  last_updated :=
                    PyStr.strip (List.last (PyStr.rsplit "|" (tag_text footer)) "") |}),
     st')
  /\ failed_urls st' = failed_urls st.
Proof.
  intros Hheader Hhref Hdetail Hlink Hraw Hrepo Htitle Hlabel Hfooter url repo st'.
  split; [|reflexivity].
  unfold scrape_asset.
  rewrite (resolve_asset_url_href _ _ _ Hheader Hhref).
  unfold scrape_fields, bind.
  rewrite (make_request_served _ _ _ Hdetail).
  rewrite Hlink. cbn [get_attr lift]. rewrite Hraw.
  rewrite make_request_failed by (now rewrite length_add_request).
  cbn [lift]. rewrite Htitle, Hlabel, Hfooter. reflexivity.
Qed.

(** C8: when [scrape_asset] does not return a record, be it [None] or an
    exception, the iteration leaves [asset_dict] unchanged; [scrape_asset]
    itself leaves it unchanged in every case. *)
Theorem no_record_no_change (item : Tag) (st : state) :
  (forall asset_info, fst (scrape_asset net item st) <> Ret (Some asset_info)) ->
  asset_dict (snd (scrape_asset net item st)) = asset_dict st
  /\ asset_dict (snd (item_step net item st)) = asset_dict st.
Proof.
  intros Hnone. pose proof (keeps_scrape_asset net item st) as Hkeep.
  split; [exact Hkeep|].
  unfold item_step, bind.
  destruct (scrape_asset net item st) as [[[asset_info|]|e] st'];
    simpl in *; try exact Hkeep.
  now destruct (Hnone asset_info).
Qed.

(** Conversely, an iteration that changes [asset_dict] had a record
    returned to it. *)
Lemma change_needs_record (item : Tag) (st : state) :
  asset_dict (snd (item_step net item st)) <> asset_dict st ->
  exists asset_info st',
    scrape_asset net item st = (Ret (Some asset_info), st')
    /\ asset_dict (snd (item_step net item st)) = merge asset_info (asset_dict st).
Proof.
  intros Hchange. pose proof (keeps_scrape_asset net item st) as Hkeep.
  unfold item_step, bind in *.
  destruct (scrape_asset net item st) as [[[asset_info|]|e] st'];
    simpl in *; try (now destruct Hchange).
  exists asset_info, st'. now rewrite Hkeep.
Qed.

End Extractor.

Lemma detail_fetch_failure_witness :
  scrape_asset Sample.offline Sample.item_old init
  = (Ret None,
     add_log (LogFetchFailed "https://godotengine.org/asset-library/asset/7")
       (add_request "https://godotengine.org/asset-library/asset/7" init)).
Proof.
  refine (proj1 (detail_fetch_failure Sample.offline Sample.item_old
                   (Sample.elem [("href", "/asset-library/asset/7")] "")
                   "/asset-library/asset/7" init _ _ _));
    reflexivity.
Defined.

Lemma repo_fetch_failure_witness :
  exists st',
    scrape_asset
      (fun n url => if Nat.eqb n 0 then Sample.serve Sample.page0 n url else None)
      Sample.item_old init
    = (Ret (Some {| name := "Dialogue";
                    asset_url := "https://godotengine.org/asset-library/asset/7";
                    repo_url := "https://github.com/owner/dialogue";
                    stars := "0";
                    godot_version := "4.2";
                    last_updated := "2024-01-01" |}), st').
Proof.
  eexists.
  refine (proj1 (repo_fetch_failure
                   (fun n url => if Nat.eqb n 0 then Sample.serve Sample.page0 n url else None)
                   Sample.item_old
                   (Sample.elem [("href", "/asset-library/asset/7")] "")
                   (Sample.detail_page "https://github.com/owner/dialogue/tree/main")
                   (Sample.elem [("href", "https://github.com/owner/dialogue/tree/main")]
                                "View files")
                   (Sample.elem [] " Dialogue ")
                   (Sample.elem [] "4.2")
                   (Sample.elem [] "Tools | MIT | 2024-01-01 ")
                   "/asset-library/asset/7"
                   "https://github.com/owner/dialogue/tree/main"
                   init _ _ _ _ _ _ _ _ _));
    reflexivity.
Defined.

Lemma no_record_no_change_witness :
  asset_dict (snd (item_step Sample.offline Sample.headless_item init)) = ∅.
Proof.
  refine (proj2 (no_record_no_change Sample.offline Sample.headless_item init _)).
  intros asset_info. vm_compute. discriminate.
Defined.

(** C2 fails on the code: a listing entry without its [.asset-header]
    element makes [scrape_asset] raise.  The [AttributeError] is caught and
    logged, but the handler then reads [asset_url], which was never bound,
    and the [UnboundLocalError] leaves [scrape_asset]; nothing is added to
    [failed_urls], and [scrape_all], which has no handler, stops on the
    spot: the entry after it is not visited, page 1 is not requested and no
    summary is logged. *)
Theorem scrape_asset_headless_raises :
  (forall net st,
      scrape_asset net Sample.headless_item st
      = (Raise (UnboundLocalError "asset_url"),
         add_log (LogScrapeFailed (AttributeError "get")) st))
  /\ scrape_all (Sample.serve Sample.page_headless) 2 init
     = (Raise (UnboundLocalError "asset_url"),
        {| asset_dict := ∅; failed_urls := ∅;
           requests := [page_url 0];
           log := [LogPage 0 2; LogScrapeFailed (AttributeError "get")] |}).
Proof.
  split.
  - intros net st. now apply scrape_asset_unbound.
  - vm_compute. reflexivity.
Qed.

(** ** Loops *)

Lemma for_each_app {A} (body : A -> M unit) (xs ys : list A) (st : state) :
  for_each body (xs ++ ys) st
  = (for_each body xs ;;; for_each body ys) st.
Proof.
  revert st. induction xs as [|x xs IH]; intros st.
  - reflexivity.
  - cbn [for_each app]. unfold bind.
    destruct (body x st) as [[[]|e] st1]; [|reflexivity].
    rewrite IH. reflexivity.
Qed.

Lemma seq_cut (page n : nat) :
  page < n -> seq 0 n = seq 0 page ++ page :: seq (S page) (n - S page).
Proof.
  intros Hlt. replace n with (page + S (n - S page)) at 1 by lia.
  now rewrite seq_app.
Qed.

Lemma merge_all_app (xs ys : list AssetInfo) (d : gmap string AssetInfo) :
  merge_all (xs ++ ys) d = merge_all ys (merge_all xs d).
Proof. apply fold_left_app. Qed.

(** The dictionary after a loop is the dictionary before it merged with
    the records seen, when each iteration is so. *)
Lemma for_each_dict {A} (body : A -> M unit) (seen : A -> state -> list AssetInfo) :
  (forall x st, asset_dict (snd (body x st)) = merge_all (seen x st) (asset_dict st)) ->
  forall xs st,
    asset_dict (snd (for_each body xs st))
    = merge_all (trace_each body seen xs st) (asset_dict st).
Proof.
  intros Hbody xs. induction xs as [|x xs IH]; intros st.
  - reflexivity.
  - cbn [for_each trace_each]. unfold bind. rewrite merge_all_app.
    specialize (Hbody x st).
    destruct (body x st) as [[[]|e] st1]; simpl in Hbody.
    + now rewrite IH, Hbody.
    + simpl. exact Hbody.
Qed.

(** ** The dedup rule along a run *)

Lemma merge_lookup_other (asset_info : AssetInfo) (d : gmap string AssetInfo) (url : string) :
  asset_url asset_info <> url -> merge asset_info d !! url = d !! url.
Proof.
  intros Hne. unfold merge.
  destruct (d !! asset_url asset_info) as [previous_info|].
  - destruct (PyStr.gt _ _); [reflexivity | now apply lookup_insert_ne].
  - now apply lookup_insert_ne.
Qed.

Lemma merge_all_snoc (records : list AssetInfo) (asset_info : AssetInfo)
    (d : gmap string AssetInfo) :
  merge_all (records ++ [asset_info]) d = merge asset_info (merge_all records d).
Proof. now rewrite merge_all_app. Qed.

Lemma tags_for_snoc (url : string) (records : list AssetInfo) (asset_info : AssetInfo) :
  tags_for url (records ++ [asset_info])
  = tags_for url records
    ++ (if String.eqb (asset_url asset_info) url then [godot_version asset_info] else []).
Proof.
  unfold tags_for. rewrite List.filter_app, List.map_app. cbn [List.filter].
  now destruct (String.eqb (asset_url asset_info) url).
Qed.

(** After merging [records] into a dictionary without [url], the entry
    for [url] is one of the records extracted for it, and no tag seen for
    [url] is greater than its tag. *)
Lemma merge_all_maximum (url : string) (d : gmap string AssetInfo)
    (records : list AssetInfo) :
  d !! url = None ->
  match tags_for url records with
  | [] => merge_all records d !! url = None
  | _ :: _ =>
      exists asset_info,
        merge_all records d !! url = Some asset_info
        /\ asset_url asset_info = url
        /\ In asset_info records
        /\ Forall (fun tag => PyStr.gt tag (godot_version asset_info) = false)
                  (tags_for url records)
  end.
Proof.
  intros Hfresh. induction records as [|asset_info records IH] using rev_ind.
  - exact Hfresh.
  - rewrite tags_for_snoc, merge_all_snoc.
    destruct (String.eqb_spec (asset_url asset_info) url) as [Hurl|Hurl].
    + destruct (tags_for url records) as [|tag tags] eqn:Htags.
      * cbn [app]. exists asset_info. unfold merge. rewrite Hurl, IH.
        split; [apply lookup_insert_eq|]. split; [reflexivity|].
        split; [apply in_or_app; right; now left|].
        constructor; [apply gt_irrefl | constructor].
      * destruct IH as (previous_info & Hprev & Hprev_url & Hin & Hmax).
        rewrite <- app_comm_cons. unfold merge. rewrite Hurl, Hprev.
        destruct (PyStr.gt (godot_version previous_info) (godot_version asset_info))
          eqn:Hgt.
        -- exists previous_info. split; [exact Hprev|]. split; [exact Hprev_url|].
           split; [apply in_or_app; now left|].
           rewrite app_comm_cons. apply Forall_app. split; [exact Hmax|].
           constructor; [now apply gt_asym | constructor].
        -- exists asset_info. split; [apply lookup_insert_eq|]. split; [exact Hurl|].
           split; [apply in_or_app; right; now left|].
           rewrite app_comm_cons. apply Forall_app. split.
           ++ eapply Forall_impl; [exact Hmax|]. intros tag0 Htag0. cbn beta in *.
              now apply ge_trans with (godot_version previous_info).
           ++ constructor; [apply gt_irrefl | constructor].
    + rewrite app_nil_r, merge_lookup_other by exact Hurl.
      destruct (tags_for url records) as [|tag tags]; [exact IH|].
      destruct IH as (previous_info & Hprev & Hprev_url & Hin & Hmax).
      exists previous_info. repeat split; try assumption.
      apply in_or_app. now left.
Qed.

(** ** The crawl *)

Section Crawl.

Variable net : nat -> string -> option Tag.

Lemma item_step_dict (item : Tag) (st : state) :
  asset_dict (snd (item_step net item st))
  = merge_all (item_extracted net item st) (asset_dict st).
Proof.
  pose proof (keeps_scrape_asset net item st) as Hkeep.
  unfold item_step, item_extracted, bind.
  destruct (scrape_asset net item st) as [[[asset_info|]|e] st1];
    simpl in *; now rewrite Hkeep.
Qed.

Lemma page_step_dict (max_pages : Z) (page : nat) (st : state) :
  asset_dict (snd (page_step net max_pages page st))
  = merge_all (page_extracted net max_pages page st) (asset_dict st).
Proof.
  unfold page_step, page_extracted, bind, logging.
  pose proof (keeps_make_request net (page_url page)
                (add_log (LogPage page max_pages) st)) as Hkeep.
  destruct (_make_request net (page_url page) (add_log (LogPage page max_pages) st))
    as [[[soup|]|e] st1]; simpl in Hkeep; try exact Hkeep.
  rewrite (for_each_dict _ _ item_step_dict). now rewrite Hkeep.
Qed.

(** The dictionary at the end of [scrape_all], however it ends, is the
    dictionary at its start merged with the records extracted. *)
Lemma scrape_all_dict (max_pages : Z) (st : state) :
  asset_dict (snd (scrape_all net max_pages st))
  = merge_all (extracted net max_pages st) (asset_dict st).
Proof.
  unfold scrape_all, extracted, bind.
  pose proof (for_each_dict _ _ (page_step_dict max_pages) (range max_pages) st) as Hloop.
  destruct (for_each (page_step net max_pages) (range max_pages) st)
    as [[[]|e] st1]; exact Hloop.
Qed.

(** C6: a listing page whose GET fails is requested once and gives no
    record; the dictionary and [failed_urls] are as before it, and
    [scrape_all] goes on with every later page index below [max_pages],
    then logs its summary. *)
Theorem failed_page_is_skipped (max_pages : Z) (page : nat) (st0 st : state) :
  (Z.of_nat page < max_pages)%Z ->
  for_each (page_step net max_pages) (seq 0 page) st0 = (Ret tt, st) ->
  net (length (requests st)) (page_url page) = None ->
  let skipped :=
    add_log (LogFetchFailed (page_url page))
      (add_request (page_url page) (add_log (LogPage page max_pages) st)) in
  page_step net max_pages page st = (Ret tt, skipped)
  /\ page_extracted net max_pages page st = []
  /\ asset_dict skipped = asset_dict st
  /\ failed_urls skipped = failed_urls st
  /\ requests skipped = requests st ++ [page_url page]
  /\ scrape_all net max_pages st0
     = (for_each (page_step net max_pages)
          (seq (S page) (Z.to_nat max_pages - S page)) ;;; summary) skipped.
Proof.
  intros Hpage Hbefore Hnet skipped.
  assert (Hrequest :
            _make_request net (page_url page) (add_log (LogPage page max_pages) st)
            = (Ret None, skipped)) by (now apply make_request_failed).
  assert (Hstep : page_step net max_pages page st = (Ret tt, skipped)).
  { unfold page_step, bind, logging. now rewrite Hrequest. }
  split; [exact Hstep|]. split.
  { unfold page_extracted. now rewrite Hrequest. }
  do 3 (split; [reflexivity|]).
  unfold scrape_all, range.
  rewrite (seq_cut page (Z.to_nat max_pages)) by lia.
  unfold bind at 1. rewrite for_each_app. unfold bind at 1.
  rewrite Hbefore. cbn [for_each]. unfold bind at 1. rewrite Hstep.
  reflexivity.
Qed.

(** C1: at the end of a run, for every URL that was not stored before it
    and for which [scrape_asset] returned at least one record, the stored
    record is one of those records and its [godot_version] is the greatest,
    under [>] on strings, of all the tags seen for the URL; when the tags
    seen are ["4.2"] and ["4.10"], in either order, the record with ["4.2"]
    is the one kept. *)
Theorem stored_tag_is_maximum
    (max_pages : Z) (st st' : state) (outcome : res unit) (url : string) :
  scrape_all net max_pages st = (outcome, st') ->
  asset_dict st !! url = None ->
  tags_seen net max_pages st url <> [] ->
  exists asset_info,
    asset_dict st' !! url = Some asset_info
    /\ asset_url asset_info = url
    /\ In asset_info (extracted net max_pages st)
    /\ In (godot_version asset_info) (tags_seen net max_pages st url)
    /\ Forall (fun tag => PyStr.gt tag (godot_version asset_info) = false)
              (tags_seen net max_pages st url)
    /\ (tags_seen net max_pages st url = ["4.2"; "4.10"]
        \/ tags_seen net max_pages st url = ["4.10"; "4.2"] ->
        godot_version asset_info = "4.2").
Proof.
  intros Hrun Hfresh Hseen.
  pose proof (scrape_all_dict max_pages st) as Hdict. rewrite Hrun in Hdict.
  cbn [snd] in Hdict.
  pose proof (merge_all_maximum url _ (extracted net max_pages st) Hfresh) as Hmax.
  unfold tags_seen in *.
  destruct (tags_for url (extracted net max_pages st)) as [|tag tags] eqn:Htags;
    [congruence|].
  destruct Hmax as (asset_info & Hlookup & Hurl & Hin & Hmax).
  assert (Htag : In (godot_version asset_info) (tag :: tags)).
  { rewrite <- Htags. unfold tags_for. apply in_map, List.filter_In.
    split; [exact Hin|]. now apply String.eqb_eq. }
  exists asset_info. rewrite Hdict.
  do 4 (split; [assumption|]). split; [exact Hmax|].
  intros [Heq|Heq]; rewrite Heq in Htag, Hmax.
  - destruct Htag as [Htag|[Htag|[]]]; [now symmetry|].
    rewrite <- Htag in Hmax. apply Forall_inv in Hmax. discriminate Hmax.
  - destruct Htag as [Htag|[Htag|[]]]; [|now symmetry].
    rewrite <- Htag in Hmax. apply Forall_inv_tail, Forall_inv in Hmax.
    discriminate Hmax.
Qed.

End Crawl.

(** ** The theorems on the sample catalogue *)

Lemma merge_replaces_unless_greater_witness :
  merge Sample.record_again
        {[ "https://godotengine.org/asset-library/asset/7" := Sample.record_first ]}
    !! "https://godotengine.org/asset-library/asset/7"
  = Some Sample.record_again.
Proof.
  refine (proj2 (proj2 (proj2 (merge_replaces_unless_greater
                                 Sample.record_again Sample.record_first
                                 {[ "https://godotengine.org/asset-library/asset/7"
                                    := Sample.record_first ]} _)) _));
    reflexivity.
Defined.

Lemma failed_page_is_skipped_witness :
  page_step (Sample.serve Sample.page0) 3 1 Sample.after_page0
  = (Ret tt,
     add_log (LogFetchFailed (page_url 1))
       (add_request (page_url 1) (add_log (LogPage 1 3) Sample.after_page0))).
Proof.
  refine (proj1 (failed_page_is_skipped (Sample.serve Sample.page0) 3 1 init
                   Sample.after_page0 _ _ _)).
  - reflexivity.
  - vm_compute. reflexivity.
  - reflexivity.
Defined.

Lemma stored_tag_is_maximum_witness :
  exists asset_info,
    asset_dict (snd (scrape_all (Sample.serve Sample.page0_swapped) 2 init))
      !! "https://godotengine.org/asset-library/asset/7" = Some asset_info
    /\ godot_version asset_info = "4.2".
Proof.
  destruct (stored_tag_is_maximum (Sample.serve Sample.page0_swapped) 2 init
              (snd (scrape_all (Sample.serve Sample.page0_swapped) 2 init))
              (fst (scrape_all (Sample.serve Sample.page0_swapped) 2 init))
              "https://godotengine.org/asset-library/asset/7")
    as (asset_info & Hstored & _ & _ & _ & _ & Hkept).
  - vm_compute. reflexivity.
  - reflexivity.
  - vm_compute. discriminate.
  - exists asset_info. split; [exact Hstored|].
    apply Hkept. right. vm_compute. reflexivity.
Defined.

(** * Further properties of the code *)

(** ** Splitting and joining *)

Section SplitJoin.

Variable sep : ascii.

Lemma split_nonempty (s : string) : PyStr.split sep s <> [].
Proof. destruct (split_head sep s) as (h & t & _ & -> & _). discriminate. Qed.

Lemma join_cons_char (c : ascii) (h : string) (pieces : list string) :
  PyStr.join (String sep "") (String c h :: pieces)
  = String c (PyStr.join (String sep "") (h :: pieces)).
Proof. unfold PyStr.join. now destruct pieces. Qed.

Lemma join_sep_cons (p : string) (pieces : list string) :
  pieces <> [] ->
  PyStr.join (String sep "") (p :: pieces)
  = p +:+ String sep (PyStr.join (String sep "") pieces).
Proof. unfold PyStr.join. now destruct pieces. Qed.

(** [sep.join(s.split(sep)) == s] *)
Lemma join_split (s : string) : PyStr.join (String sep "") (PyStr.split sep s) = s.
Proof.
  induction s as [|c s IH]; [reflexivity|].
  cbn [PyStr.split]. destruct (Ascii.eqb_spec c sep) as [->|Hne].
  - rewrite join_sep_cons by apply split_nonempty. now rewrite IH.
  - destruct (PyStr.split sep s) as [|h t] eqn:Hs; [now destruct (split_nonempty s)|].
    now rewrite join_cons_char, IH.
Qed.

(** Joining the first pieces of a split gives back a prefix of the string. *)
Lemma join_firstn_prefix (n : nat) (s : string) :
  exists post, s = PyStr.join (String sep "") (firstn n (PyStr.split sep s)) +:+ post.
Proof.
  revert n. induction s as [|c s IH]; intros n.
  - exists "". destruct n as [|[|n]]; reflexivity.
  - destruct n as [|n]; [exists (String c s); reflexivity|].
    cbn [PyStr.split]. destruct (Ascii.eqb_spec c sep) as [->|Hne].
    + cbn [firstn]. destruct (firstn n (PyStr.split sep s)) as [|p ps] eqn:Hn.
      * exists (String sep s). reflexivity.
      * destruct (IH n) as [post Hpost]. exists post.
        rewrite join_sep_cons by discriminate. rewrite Hn in Hpost.
        now rewrite append_nil_l, append_cons, <- Hpost.
    + destruct (IH (S n)) as [post Hpost].
      destruct (PyStr.split sep s) as [|h t] eqn:Hs; [now destruct (split_nonempty s)|].
      exists post. cbn [firstn] in *.
      now rewrite join_cons_char, append_cons, <- Hpost.
Qed.

(** A piece [p] is free of [sep] when splitting it gives [p] alone. *)
Lemma split_pieces_whole (s : string) :
  Forall (fun p => PyStr.split sep p = [p]) (PyStr.split sep s).
Proof.
  induction s as [|c s IH]; cbn [PyStr.split].
  - now constructor.
  - destruct (Ascii.eqb_spec c sep) as [->|Hne].
    + now constructor.
    + destruct (PyStr.split sep s) as [|h t] eqn:Hs; [now destruct (split_nonempty s)|].
      inversion IH as [|? ? Hh Ht]; subst. constructor; [|exact Ht].
      cbn [PyStr.split]. apply Ascii.eqb_neq in Hne. now rewrite Hne, Hh.
Qed.

Lemma split_whole_app (p rest : string) :
  PyStr.split sep p = [p] ->
  PyStr.split sep (p +:+ String sep rest) = p :: PyStr.split sep rest.
Proof.
  induction p as [|c p IH]; intros Hp.
  - rewrite append_nil_l. cbn [PyStr.split]. now rewrite Ascii.eqb_refl.
  - rewrite append_cons. cbn [PyStr.split] in *.
    destruct (Ascii.eqb c sep); [discriminate|].
    destruct (PyStr.split sep p) as [|h t] eqn:Hs; [now destruct (split_nonempty p)|].
    injection Hp as -> ->. now rewrite IH.
Qed.

(** [sep.join(pieces).split(sep) == pieces] for pieces free of [sep]. *)
Lemma split_join (pieces : list string) :
  pieces <> [] ->
  Forall (fun p => PyStr.split sep p = [p]) pieces ->
  PyStr.split sep (PyStr.join (String sep "") pieces) = pieces.
Proof.
  induction pieces as [|p pieces IH]; [congruence|].
  intros _ Hall. inversion Hall as [|? ? Hp Hrest]; subst.
  destruct pieces as [|q pieces]; [exact Hp|].
  rewrite join_sep_cons by discriminate.
  rewrite split_whole_app by exact Hp. now rewrite IH.
Qed.

Lemma split_join_firstn (n : nat) (s : string) :
  PyStr.split sep (PyStr.join (String sep "") (firstn (S n) (PyStr.split sep s)))
  = firstn (S n) (PyStr.split sep s).
Proof.
  apply split_join.
  - destruct (PyStr.split sep s) eqn:Hs; [now destruct (split_nonempty s)|discriminate].
  - apply Forall_take, split_pieces_whole.
Qed.

End SplitJoin.

(** ** More on [_clean_repo_url] *)

Lemma clean_repo_url_github (url : string) :
  PyStr.contains "github" url = true ->
  _clean_repo_url url = PyStr.join "/" (firstn 5 (PyStr.split "/" url)).
Proof. intros H. unfold _clean_repo_url. now rewrite H, split_max_firstn. Qed.

Lemma clean_repo_url_plain (url : string) :
  PyStr.contains "github" url = false -> _clean_repo_url url = url.
Proof. intros H. unfold _clean_repo_url. now rewrite H. Qed.

(** X1: the cleaned URL is always a prefix of the URL given: cleaning only
    cuts the end off and never rewrites what it keeps. *)
Theorem clean_repo_url_is_prefix (url : string) :
  String.prefix (_clean_repo_url url) url = true
  /\ exists cut, url = _clean_repo_url url +:+ cut.
Proof.
  assert (Hcut : exists cut, url = _clean_repo_url url +:+ cut).
  { destruct (PyStr.contains "github" url) eqn:Hgh.
    - rewrite (clean_repo_url_github _ Hgh). apply join_firstn_prefix.
    - rewrite (clean_repo_url_plain _ Hgh). exists "".
      clear Hgh. induction url as [|c url IH]; [reflexivity|].
      now rewrite append_cons, <- IH. }
  split; [|exact Hcut].
  destruct Hcut as [cut Hcut]. rewrite Hcut at 2. apply prefix_append.
Qed.

Lemma clean_repo_url_twice (url : string) :
  _clean_repo_url (_clean_repo_url url) = _clean_repo_url url.
Proof.
  destruct (PyStr.contains "github" url) eqn:Hgh.
  - rewrite (clean_repo_url_github _ Hgh).
    destruct (PyStr.contains "github"
                (PyStr.join "/" (firstn 5 (PyStr.split "/" url)))) eqn:Hgh'.
    + rewrite (clean_repo_url_github _ Hgh').
      rewrite (split_join_firstn "/" 4 url).
      now rewrite firstn_firstn.
    + now apply clean_repo_url_plain.
  - now rewrite !(clean_repo_url_plain _ Hgh).
Qed.

(** X2: cleaning is idempotent: a cleaned URL is left as it is by a second
    cleaning. *)
Theorem clean_repo_url_idempotent (url : string) :
  _clean_repo_url (_clean_repo_url url) = _clean_repo_url url.
Proof. apply clean_repo_url_twice. Qed.

(** X3: a URL of at most five ['/']-separated segments is returned
    unchanged, whatever its host. *)
Theorem clean_repo_url_short (url : string) :
  length (PyStr.split "/" url) <= 5 -> _clean_repo_url url = url.
Proof.
  intros Hshort. destruct (PyStr.contains "github" url) eqn:Hgh.
  - rewrite (clean_repo_url_github _ Hgh).
    rewrite firstn_all2 by exact Hshort. apply (join_split "/").
  - now apply clean_repo_url_plain.
Qed.

Lemma clean_repo_url_short_witness :
  _clean_repo_url "https://github.com/owner/repo" = "https://github.com/owner/repo".
Proof.
  apply (clean_repo_url_short "https://github.com/owner/repo").
  vm_compute. repeat constructor.
Defined.

(** X4: when ["github"] occurs in the URL, the segments of the cleaned URL
    are exactly the first five segments of the URL given, so the cleaned
    URL has at most five segments and ends without a ['/']-separated
    remainder. *)
Theorem clean_repo_url_segments (url : string) :
  PyStr.contains "github" url = true ->
  PyStr.split "/" (_clean_repo_url url) = firstn 5 (PyStr.split "/" url)
  /\ length (PyStr.split "/" (_clean_repo_url url)) <= 5.
Proof.
  intros Hgh. rewrite (clean_repo_url_github _ Hgh).
  rewrite (split_join_firstn "/" 4 url). split; [reflexivity|].
  rewrite length_firstn. lia.
Qed.

Lemma clean_repo_url_segments_witness :
  PyStr.split "/" (_clean_repo_url "https://github.com/owner/repo/tree/main/docs")
  = ["https:"; ""; "github.com"; "owner"; "repo"].
Proof.
  refine (proj1 (clean_repo_url_segments
                   "https://github.com/owner/repo/tree/main/docs" _)).
  reflexivity.
Defined.

(** ** One-character patterns *)

Section OneChar.

Variable c : ascii.

Lemma contains_char_nil : PyStr.contains (String c "") "" = false.
Proof. reflexivity. Qed.

Lemma contains_char_cons (d : ascii) (s : string) :
  PyStr.contains (String c "") (String d s)
  = Ascii.eqb c d || PyStr.contains (String c "") s.
Proof.
  rewrite contains_unfold, prefix_one. now destruct (Ascii.eqb c d).
Qed.

Lemma contains_char_app (a b : string) :
  PyStr.contains (String c "") (a +:+ b)
  = PyStr.contains (String c "") a || PyStr.contains (String c "") b.
Proof.
  induction a as [|d a IH]; [reflexivity|].
  rewrite append_cons, !contains_char_cons, IH. now rewrite orb_assoc.
Qed.

Lemma replace_char_app (new a b : string) :
  PyStr.replace (String c "") new (a +:+ b)
  = PyStr.replace (String c "") new a +:+ PyStr.replace (String c "") new b.
Proof.
  induction a as [|d a IH]; [reflexivity|].
  rewrite append_cons, !replace_char_cons, IH.
  destruct (Ascii.eqb c d); [now rewrite append_assoc | now rewrite append_cons].
Qed.

(** Nothing to replace: the string comes back as it is. *)
Lemma replace_char_absent (new s : string) :
  PyStr.contains (String c "") s = false -> PyStr.replace (String c "") new s = s.
Proof.
  induction s as [|d s IH]; [reflexivity|].
  rewrite contains_char_cons, replace_char_cons.
  intros H. apply orb_false_elim in H as [-> H]. now rewrite IH.
Qed.

(** After the replacement the pattern is gone, unless [new] brings it. *)
Lemma replace_char_gone (new s : string) :
  PyStr.contains (String c "") new = false ->
  PyStr.contains (String c "") (PyStr.replace (String c "") new s) = false.
Proof.
  intros Hnew. induction s as [|d s IH]; [reflexivity|].
  rewrite replace_char_cons. destruct (Ascii.eqb c d) eqn:Hcd.
  - now rewrite contains_char_app, Hnew, IH.
  - now rewrite contains_char_cons, Hcd, IH.
Qed.

(** A character absent from [s] and from [new] is absent from the result
    of replacing another character by [new]. *)
Lemma replace_char_keeps_absent (d : ascii) (new s : string) :
  PyStr.contains (String c "") s = false ->
  PyStr.contains (String c "") new = false ->
  PyStr.contains (String c "") (PyStr.replace (String d "") new s) = false.
Proof.
  intros Hs Hnew. induction s as [|e s IH]; [reflexivity|].
  rewrite contains_char_cons in Hs. apply orb_false_elim in Hs as [Hce Hs].
  rewrite replace_char_cons. destruct (Ascii.eqb d e).
  - now rewrite contains_char_app, Hnew, IH.
  - now rewrite contains_char_cons, Hce, IH.
Qed.

End OneChar.

(** ** More on the export-time normalisation *)

Lemma stars_lambda_app (a b : string) :
  stars_lambda (a +:+ b) = stars_lambda a +:+ stars_lambda b.
Proof. unfold stars_lambda. now rewrite !replace_char_app. Qed.

Lemma stars_lambda_plain (x : string) :
  PyStr.contains "." x = false -> PyStr.contains "k" x = false -> stars_lambda x = x.
Proof.
  intros Hdot Hk. unfold stars_lambda.
  rewrite (replace_char_absent "." "" x Hdot). now apply replace_char_absent.
Qed.

Lemma stars_lambda_no_period (x : string) :
  PyStr.contains "." (stars_lambda x) = false.
Proof.
  unfold stars_lambda. apply replace_char_keeps_absent; [|reflexivity].
  now apply replace_char_gone.
Qed.

Lemma stars_lambda_no_k (x : string) : PyStr.contains "k" (stars_lambda x) = false.
Proof. unfold stars_lambda. now apply replace_char_gone. Qed.

(** X5: what the [lambda] of [save_results] returns holds neither a period
    nor a ["k"], and applying it a second time changes nothing. *)
Theorem stars_lambda_normal_form (x : string) :
  PyStr.contains "." (stars_lambda x) = false
  /\ PyStr.contains "k" (stars_lambda x) = false
  /\ stars_lambda (stars_lambda x) = stars_lambda x.
Proof.
  split; [apply stars_lambda_no_period|]. split; [apply stars_lambda_no_k|].
  apply stars_lambda_plain; [apply stars_lambda_no_period | apply stars_lambda_no_k].
Qed.

Lemma digits_value_app (acc : Z) (a b : string) :
  digits_value acc (a +:+ b)
  = match digits_value acc a with
    | Some v => digits_value v b
    | None => None
    end.
Proof.
  revert acc. induction a as [|d a IH]; intros acc; [reflexivity|].
  rewrite append_cons. cbn [digits_value].
  destruct (_ && _)%bool; [apply IH | reflexivity].
Qed.

Lemma digits_value_plain (acc v : Z) (s : string) :
  digits_value acc s = Some v ->
  PyStr.contains "." s = false /\ PyStr.contains "k" s = false.
Proof.
  revert acc. induction s as [|d s IH]; intros acc; [now split|].
  cbn [digits_value]. rewrite !contains_char_cons.
  destruct (_ && _)%bool eqn:Hdigit; [|discriminate].
  intros H. destruct (IH _ H) as [-> ->].
  destruct (Ascii.eqb_spec "." d) as [<-|_]; [discriminate Hdigit|].
  destruct (Ascii.eqb_spec "k" d) as [<-|_]; [discriminate Hdigit|].
  now split.
Qed.

Lemma digits_value_bounds (acc v : Z) (s : string) :
  (0 <= acc)%Z -> digits_value acc s = Some v -> (acc <= v)%Z.
Proof.
  revert acc. induction s as [|d s IH]; intros acc Hacc; cbn [digits_value].
  - intros [= <-]. lia.
  - destruct (_ && _)%bool eqn:Hdigit; [|discriminate].
    apply andb_prop in Hdigit as [Hlo Hhi].
    apply Z.leb_le in Hlo, Hhi. intros H. apply IH in H; lia.
Qed.

Lemma to_numeric_digits (s : string) (v : Z) :
  s <> "" -> digits_value 0 s = Some v -> (v < 2 ^ 63)%Z -> to_numeric s = Some v.
Proof.
  intros Hs Hv Hbound. unfold to_numeric. destruct s; [congruence|].
  rewrite Hv. apply Z.ltb_lt in Hbound. now rewrite Hbound.
Qed.

(** X6: for a stored string made of decimal digits, a period among them
    or not, and a final ["k"], the exported number is one hundred times the
    number the digits spell (["1.2k"] gives 1200, ["5k"] gives 500 and
    ["1.25k"] gives 12500); without the ["k"] it is the number the digits
    spell. *)
Theorem exported_stars_digits (a b : string) (v : Z) :
  digits_value 0 (a +:+ b) = Some v ->
  a +:+ b <> "" ->
  (100 * v < 2 ^ 63)%Z ->
  exported_stars (a +:+ "." +:+ b +:+ "k") = Some (100 * v)%Z
  /\ exported_stars (a +:+ b +:+ "k") = Some (100 * v)%Z
  /\ exported_stars (a +:+ "." +:+ b) = Some v
  /\ exported_stars (a +:+ b) = Some v.
Proof.
  intros Hv Hne Hbound.
  pose proof (digits_value_bounds 0 v _ ltac:(lia) Hv) as Hpos.
  pose proof Hv as Hsplit. rewrite digits_value_app in Hsplit.
  destruct (digits_value 0 a) as [va|] eqn:Ha; [|discriminate].
  destruct (digits_value_plain _ _ _ Ha) as [Hadot Hak].
  destruct (digits_value_plain _ _ _ Hsplit) as [Hbdot Hbk].
  assert (Hlam_a : stars_lambda a = a) by now apply stars_lambda_plain.
  assert (Hlam_b : stars_lambda b = b) by now apply stars_lambda_plain.
  assert (Hnum_k : to_numeric (a +:+ b +:+ "00") = Some (100 * v)%Z).
  { apply to_numeric_digits.
    - destruct a; [destruct b|]; discriminate.
    - rewrite <- append_assoc, digits_value_app, Hv. cbn. f_equal. lia.
    - exact Hbound. }
  assert (Hnum : to_numeric (a +:+ b) = Some v)
    by (apply to_numeric_digits; [assumption..|lia]).
  unfold exported_stars. rewrite !stars_lambda_app, Hlam_a, Hlam_b.
  change (stars_lambda ".") with "". change (stars_lambda "k") with "00".
  rewrite !append_nil_l. now repeat split.
Qed.

Lemma exported_stars_digits_witness :
  exported_stars ("1" +:+ "." +:+ "25" +:+ "k") = Some (100 * 125)%Z.
Proof.
  refine (proj1 (exported_stars_digits "1" "25" 125 _ _ _)).
  - reflexivity.
  - discriminate.
  - reflexivity.
Defined.

(** ** More on [_parse_stars] *)



(** ** More on [scrape_asset] *)

(** Case analysis along the control flow of [scrape_asset]. *)
Ltac scrape_asset_paths :=
  unfold scrape_asset, scrape_fields, except_handler, resolve_asset_url,
    bind, lift, logging, ret, _make_request, get_attr, get_text in *;
  repeat match goal with
         | H : context [match ?x with _ => _ end] |- _ =>
             lazymatch x with
             | context [match _ with _ => _ end] => fail
             | _ => destruct x eqn:?
             end
         | |- context [match ?x with _ => _ end] =>
             lazymatch x with
             | context [match _ with _ => _ end] => fail
             | _ => destruct x eqn:?
             end
         end;
  repeat match goal with
         | H : (_, _) = (_, _) |- _ => injection H as ? ?
         end;
  subst; try discriminate.

Section ExtractorMore.

Variable net : nat -> string -> option Tag.

(** X8: the only exception that leaves [scrape_asset] is the
    [UnboundLocalError] on [asset_url]; it arises exactly when the
    [.asset-header] element or its [href] is missing, before any request is
    issued, and then [failed_urls] is left as it was. *)
Theorem scrape_asset_raises_only_unbound (item : Tag) (st st' : state) (e : exn) :
  scrape_asset net item st = (Raise e, st') ->
  e = UnboundLocalError "asset_url"
  /\ (select_one item ".asset-header" = None
      \/ exists header, select_one item ".asset-header" = Some header
                        /\ tag_attrs header !! "href" = None)
  /\ requests st' = requests st
  /\ failed_urls st' = failed_urls st.
Proof.
  intros Hrun. scrape_asset_paths; repeat split; eauto.
Qed.

End ExtractorMore.

Lemma scrape_asset_raises_only_unbound_witness :
  UnboundLocalError "asset_url" = UnboundLocalError "asset_url"
  /\ (select_one Sample.headless_item ".asset-header" = None
      \/ exists header, select_one Sample.headless_item ".asset-header" = Some header
                        /\ tag_attrs header !! "href" = None)
  /\ requests (add_log (LogScrapeFailed (AttributeError "get")) init) = requests init
  /\ failed_urls (add_log (LogScrapeFailed (AttributeError "get")) init)
     = failed_urls init.
Proof.
  exact (scrape_asset_raises_only_unbound Sample.offline
           Sample.headless_item init
           (add_log (LogScrapeFailed (AttributeError "get")) init)
           (UnboundLocalError "asset_url") eq_refl).
Defined.

Section ExtractorTrace.

Variable net : nat -> string -> option Tag.


(** X10: [scrape_asset] adds a URL to [failed_urls] only on a call that
    returns [None], and then it is the entry's own URL; on every other
    call [failed_urls] is as before.  No entry is ever removed. *)
Theorem scrape_asset_failed_urls
    (item : Tag) (st st' : state) (outcome : res (option AssetInfo)) :
  scrape_asset net item st = (outcome, st') ->
  (failed_urls st' = failed_urls st
   \/ exists url, outcome = Ret None
                  /\ resolve_asset_url item = Ret url
                  /\ failed_urls st' = {[url]} ∪ failed_urls st)
  /\ failed_urls st ⊆ failed_urls st'.
Proof.
  intros Hrun.
  assert (Hcases : failed_urls st' = failed_urls st
                   \/ exists url, outcome = Ret None
                                  /\ resolve_asset_url item = Ret url
                                  /\ failed_urls st' = {[url]} ∪ failed_urls st).
  { scrape_asset_paths; cbn [failed_urls add_request add_log add_failed];
      first [ left; reflexivity | right; eauto ]. }
  split; [exact Hcases|].
  destruct Hcases as [->|(url & _ & _ & ->)]; set_solver.
Qed.

(** X11: a record returned by [scrape_asset] has the catalogue's base URL
    followed by the entry's [href] as [asset_url] and a cleaned URL, which
    cleaning leaves unchanged, as [repo_url]; its [stars] is ["0"] when the
    repository URL names neither ["github"] nor ["gitlab"]; the call issued
    exactly the two requests for these URLs, in this order, and left
    [failed_urls] as it was. *)
Theorem scrape_asset_record (item : Tag) (st st' : state) (asset_info : AssetInfo) :
  scrape_asset net item st = (Ret (Some asset_info), st') ->
  (exists header href,
      select_one item ".asset-header" = Some header
      /\ tag_attrs header !! "href" = Some href
      /\ asset_url asset_info = BASE_URL +:+ href)
  /\ String.prefix BASE_URL (asset_url asset_info) = true
  /\ _clean_repo_url (repo_url asset_info) = repo_url asset_info
  /\ (PyStr.contains "github" (repo_url asset_info) = false ->
      PyStr.contains "gitlab" (repo_url asset_info) = false ->
      stars asset_info = "0")
  /\ requests st' = requests st ++ [asset_url asset_info; repo_url asset_info]
  /\ failed_urls st' = failed_urls st.
Proof.
  intros Hrun.
  scrape_asset_paths;
    cbn [asset_url repo_url stars requests failed_urls add_request add_log add_failed];
    rewrite <- ?app_assoc; cbn [app];
    (split; [eauto|]); (split; [apply prefix_append|]);
    (split; [apply clean_repo_url_twice|]);
    (split; [|split; reflexivity]);
    intros Hgh Hgl;
    match goal with
    | H : context [_parse_stars] |- _ =>
        unfold _parse_stars in H; rewrite Hgh, Hgl in H; now injection H as <-
    | _ => reflexivity
    end.
Qed.

(** X12: when the repository URL contains ["github"] and its page, fetched
    all right, has no [.js-social-count] element, the [AttributeError] of
    [_parse_stars] is caught in [scrape_asset]: the call returns [None],
    logs the error and adds the entry's URL to [failed_urls]. *)
Theorem scrape_asset_counter_missing
    (item header asset_soup link repo_soup : Tag) (href raw : string) (st : state) :
  select_one item ".asset-header" = Some header ->
  tag_attrs header !! "href" = Some href ->
  net (length (requests st)) (BASE_URL +:+ href) = Some asset_soup ->
  select_one asset_soup ".container a.btn-default" = Some link ->
  tag_attrs link !! "href" = Some raw ->
  PyStr.contains "github" (_clean_repo_url raw) = true ->
  net (S (length (requests st))) (_clean_repo_url raw) = Some repo_soup ->
  select_one repo_soup ".js-social-count" = None ->
  let url := BASE_URL +:+ href in
  let st' := add_failed url
               (add_log (LogScrapeFailed (AttributeError "get"))
                  (add_request (_clean_repo_url raw) (add_request url st))) in
  scrape_asset net item st = (Ret None, st')
  /\ url ∈ failed_urls st'
  /\ asset_dict (snd (item_step net item st)) = asset_dict st.
Proof.
  intros Hheader Hhref Hdetail Hlink Hraw Hgh Hrepo Hcount url st'.
  assert (Hrun : scrape_asset net item st = (Ret None, st')).
  { unfold scrape_asset.
    rewrite (resolve_asset_url_href _ _ _ Hheader Hhref).
    unfold scrape_fields, bind.
    rewrite (make_request_served _ _ _ _ Hdetail).
    rewrite Hlink. cbn [get_attr lift]. rewrite Hraw.
    rewrite (make_request_served net _ repo_soup)
      by (now rewrite length_add_request).
    cbn [lift]. unfold _parse_stars. rewrite Hgh, Hcount. reflexivity. }
  split; [exact Hrun|]. split.
  - subst st'. cbn [failed_urls add_failed]. set_solver.
  - unfold item_step, bind. rewrite Hrun. reflexivity.
Qed.

End ExtractorTrace.


Lemma scrape_asset_failed_urls_witness :
  failed_urls init
  ⊆ failed_urls (snd (scrape_asset Sample.serve_bare Sample.item_old init)).
Proof.
  refine (proj2 (scrape_asset_failed_urls Sample.serve_bare Sample.item_old init
                   (snd (scrape_asset Sample.serve_bare Sample.item_old init))
                   (fst (scrape_asset Sample.serve_bare Sample.item_old init)) _)).
  vm_compute. reflexivity.
Defined.

Lemma scrape_asset_record_witness :
  _clean_repo_url "https://github.com/owner/dialogue"
  = "https://github.com/owner/dialogue".
Proof.
  refine (proj1 (proj2 (proj2 (scrape_asset_record (Sample.serve Sample.page0)
                                 Sample.item_old init
                                 (snd (scrape_asset (Sample.serve Sample.page0)
                                         Sample.item_old init))
                                 {| name := "Dialogue";
                                    asset_url := "https://godotengine.org/asset-library/asset/7";
                                    repo_url := "https://github.com/owner/dialogue";
                                    stars := "1234";
                                    godot_version := "4.2";
                                    last_updated := "2024-01-01" |} _)))).
  vm_compute. reflexivity.
Defined.

Lemma scrape_asset_counter_missing_witness :
  "https://godotengine.org/asset-library/asset/7"
  ∈ failed_urls (snd (scrape_asset Sample.serve_bare Sample.item_old init)).
Proof.
  pose proof (scrape_asset_counter_missing Sample.serve_bare Sample.item_old
                (Sample.elem [("href", "/asset-library/asset/7")] "")
                (Sample.detail_page "https://github.com/owner/dialogue/tree/main")
                (Sample.elem [("href", "https://github.com/owner/dialogue/tree/main")]
                             "View files")
                (Sample.node [])
                "/asset-library/asset/7"
                "https://github.com/owner/dialogue/tree/main"
                init eq_refl eq_refl eq_refl eq_refl eq_refl eq_refl eq_refl eq_refl)
    as (Hrun & Hfailed & _).
  rewrite Hrun. exact Hfailed.
Defined.

(** ** More on the loops *)

Lemma grows_refl (st : state) : grows st st.
Proof. repeat split; reflexivity. Qed.

Lemma grows_trans (st1 st2 st3 : state) : grows st1 st2 -> grows st2 st3 -> grows st1 st3.
Proof.
  intros (Hf & Hr & Hl) (Hf' & Hr' & Hl'). repeat split.
  - set_solver.
  - now transitivity (requests st2).
  - now transitivity (log st2).
Qed.

Lemma grows_add_log (r : log_record) (st : state) : grows st (add_log r st).
Proof. repeat split; cbn; [set_solver | reflexivity | now apply prefix_app_r]. Qed.

Lemma grows_add_request (url : string) (st : state) : grows st (add_request url st).
Proof. repeat split; cbn; [set_solver | now apply prefix_app_r | reflexivity]. Qed.

Lemma grows_add_failed (url : string) (st : state) : grows st (add_failed url st).
Proof. repeat split; cbn; [set_solver | reflexivity..]. Qed.

Lemma grows_set_asset_dict (d : gmap string AssetInfo) (st : state) :
  grows st (set_asset_dict d st).
Proof. repeat split; reflexivity. Qed.

Lemma growing_ret {A} (a : A) : growing (ret a).
Proof. intros st o st' [= <- <-]. apply grows_refl. Qed.

Lemma growing_lift {A} (r : res A) : growing (lift r).
Proof. intros st o st' [= <- <-]. apply grows_refl. Qed.

Lemma growing_logging (r : log_record) : growing (logging r).
Proof. intros st o st' [= <- <-]. apply grows_add_log. Qed.

Lemma growing_bind {A B} (m : M A) (k : A -> M B) :
  growing m -> (forall a, growing (k a)) -> growing (bind m k).
Proof.
  intros Hm Hk st o st'. unfold bind.
  destruct (m st) as [[a|e] st1] eqn:Hrun.
  - intros Hrest. eapply grows_trans; [eapply Hm, Hrun | eapply Hk, Hrest].
  - intros [= <- <-]. eapply Hm, Hrun.
Qed.

Lemma growing_for_each {A} (body : A -> M unit) (xs : list A) :
  (forall x, growing (body x)) -> growing (for_each body xs).
Proof.
  intros Hbody. induction xs as [|x xs IH]; cbn [for_each].
  - apply growing_ret.
  - apply growing_bind; [apply Hbody | intros _; exact IH].
Qed.



(** A record seen along a loop was seen in one of its iterations. *)
Lemma trace_each_in {A} (body : A -> M unit) (seen : A -> state -> list AssetInfo)
    (xs : list A) (st : state) (asset_info : AssetInfo) :
  In asset_info (trace_each body seen xs st) ->
  exists x st0, In x xs /\ In asset_info (seen x st0).
Proof.
  revert st. induction xs as [|x xs IH]; intros st; cbn [trace_each].
  - intros [].
  - intros Hin. apply in_app_or in Hin as [Hin|Hin].
    + exists x, st. split; [now left | exact Hin].
    + destruct (body x st) as [[[]|e] st1]; [|now destruct Hin].
      destruct (IH _ Hin) as (y & st0 & Hy & Hseen).
      exists y, st0. split; [now right | exact Hseen].
Qed.

Section CrawlMore.

Variable net : nat -> string -> option Tag.

Lemma growing_make_request (url : string) : growing (_make_request net url).
Proof.
  intros st o st'. unfold _make_request.
  destruct (net (length (requests st)) url); intros [= <- <-].
  - apply grows_add_request.
  - eapply grows_trans; [apply grows_add_request | apply grows_add_log].
Qed.

Lemma growing_except_handler (e : exn) (asset_url : option string) :
  growing (except_handler e asset_url).
Proof.
  unfold except_handler. apply growing_bind; [apply growing_logging|].
  intros _. destruct asset_url as [url|]; [|apply growing_lift].
  intros st o st' [= <- <-]. apply grows_add_failed.
Qed.

Lemma growing_scrape_fields (item : Tag) (asset_url : string) :
  growing (scrape_fields net item asset_url).
Proof.
  unfold scrape_fields.
  apply growing_bind; [apply growing_make_request|].
  intros [asset_soup|]; [|apply growing_ret].
  repeat (apply growing_bind;
          [first [apply growing_make_request | apply growing_lift] | intros ?]).
  apply growing_ret.
Qed.

Lemma growing_scrape_asset (item : Tag) : growing (scrape_asset net item).
Proof.
  intros st o st'. unfold scrape_asset.
  destruct (resolve_asset_url item) as [url|e].
  - destruct (scrape_fields net item url st) as [[r|e] st1] eqn:Hrun.
    + intros [= <- <-]. eapply growing_scrape_fields, Hrun.
    + intros Hhandler. eapply grows_trans.
      * eapply growing_scrape_fields, Hrun.
      * eapply growing_except_handler, Hhandler.
  - apply growing_except_handler.
Qed.

Lemma growing_item_step (item : Tag) : growing (item_step net item).
Proof.
  unfold item_step. apply growing_bind; [apply growing_scrape_asset|].
  intros [asset_info|]; [|apply growing_ret].
  apply growing_bind; [apply growing_logging|].
  intros _ st o st' [= <- <-]. apply grows_set_asset_dict.
Qed.

Lemma growing_page_step (max_pages : Z) (page : nat) :
  growing (page_step net max_pages page).
Proof.
  unfold page_step. apply growing_bind; [apply growing_logging|]. intros _.
  apply growing_bind; [apply growing_make_request|].
  intros [soup|]; [|apply growing_ret].
  apply growing_for_each, growing_item_step.
Qed.

(** X13: a crawl never takes back what it has recorded: at its end,
    however it ends, every URL that was in [failed_urls] is still there,
    and the requests issued and the log written before it are the beginning
    of the requests and of the log. *)
Theorem scrape_all_grows (max_pages : Z) (st st' : state) (outcome : res unit) :
  scrape_all net max_pages st = (outcome, st') ->
  failed_urls st ⊆ failed_urls st'
  /\ (exists issued, requests st' = requests st ++ issued)
  /\ (exists written, log st' = log st ++ written).
Proof.
  intros Hrun.
  assert (Hgrows : growing (scrape_all net max_pages)).
  { unfold scrape_all. apply growing_bind.
    - apply growing_for_each, growing_page_step.
    - intros _ st0 o st1 [= <- <-].
      eapply grows_trans; apply grows_add_log. }
  destruct (Hgrows _ _ _ Hrun) as (Hfailed & Hrequests & Hlog).
  split; [exact Hfailed|]. split; [exact Hrequests | exact Hlog].
Qed.

End CrawlMore.

Lemma scrape_all_grows_witness :
  failed_urls init
  ⊆ failed_urls (snd (scrape_all (Sample.serve Sample.page0) 2 init)).
Proof.
  refine (proj1 (scrape_all_grows (Sample.serve Sample.page0) 2 init
                   (snd (scrape_all (Sample.serve Sample.page0) 2 init))
                   (fst (scrape_all (Sample.serve Sample.page0) 2 init)) _)).
  vm_compute. reflexivity.
Defined.

(** ** The listing URLs *)

Lemma length_append (a b : string) :
  String.length (a +:+ b) = String.length a + String.length b.
Proof.
  induction a as [|x a IH]; [reflexivity|].
  rewrite append_cons. cbn [String.length]. now rewrite IH.
Qed.

Lemma append_cancel_r (a b c : string) : a +:+ c = b +:+ c -> a = b.
Proof.
  revert b. induction a as [|x a IH]; intros [|y b] H.
  - reflexivity.
  - apply (f_equal String.length) in H.
    rewrite append_nil_l, append_cons in H. cbn [String.length] in H.
    rewrite length_append in H. lia.
  - apply (f_equal String.length) in H.
    rewrite append_nil_l, append_cons in H. cbn [String.length] in H.
    rewrite length_append in H. lia.
  - rewrite !append_cons in H. injection H as -> H. now rewrite (IH _ H).
Qed.

Lemma page_url_injective (p q : nat) : page_url p = page_url q -> p = q.
Proof.
  unfold page_url. intros H.
  apply (String.app_inj BASE_URL) in H.
  apply (String.app_inj "/asset-library/asset?max_results=100&page=") in H.
  apply append_cancel_r in H. now apply pretty_nat_inj in H.
Qed.

(** X14: distinct page indices give distinct listing URLs, so the listing
    URLs of one crawl, one per index below [max_pages], are pairwise
    distinct. *)
Theorem page_urls_distinct (max_pages : Z) :
  (forall p q, page_url p = page_url q -> p = q)
  /\ NoDup (List.map page_url (range max_pages))
  /\ length (List.map page_url (range max_pages)) = Z.to_nat max_pages.
Proof.
  split; [exact page_url_injective|]. split.
  - apply NoDup_fmap_2; [exact page_url_injective|]. apply NoDup_seq.
  - unfold range. now rewrite length_map, length_seq.
Qed.

(** ** More on the crawl *)

Section CrawlOutcome.

Variable net : nat -> string -> option Tag.

Lemma pages_all_fail (max_pages : Z) (pages : list nat) (st : state) :
  (forall n page, net n (page_url page) = None) ->
  exists st',
    for_each (page_step net max_pages) pages st = (Ret tt, st')
    /\ asset_dict st' = asset_dict st
    /\ failed_urls st' = failed_urls st
    /\ requests st' = requests st ++ List.map page_url pages.
Proof.
  intros Hfail. revert st. induction pages as [|page pages IH]; intros st.
  - exists st. cbn. now rewrite app_nil_r.
  - cbn [for_each]. unfold bind at 1.
    assert (Hstep : page_step net max_pages page st
                    = (Ret tt, add_log (LogFetchFailed (page_url page))
                                 (add_request (page_url page)
                                    (add_log (LogPage page max_pages) st)))).
    { unfold page_step, bind, logging, _make_request. now rewrite Hfail. }
    rewrite Hstep.
    destruct (IH (add_log (LogFetchFailed (page_url page))
                    (add_request (page_url page)
                       (add_log (LogPage page max_pages) st))))
      as (st' & Hrun & Hdict & Hfailed & Hrequests).
    exists st'. split; [exact Hrun|]. split; [exact Hdict|]. split; [exact Hfailed|].
    rewrite Hrequests. cbn. now rewrite <- app_assoc.
Qed.

(** X15: when every listing page fails to load, [scrape_all] still returns
    normally: it has requested each listing URL once, in the order of the
    page indices, and nothing else, and [asset_dict] and [failed_urls] are
    as before; for [max_pages <= 0] it issues no request at all. *)
Theorem scrape_all_pages_fail (max_pages : Z) (st : state) :
  (forall n page, net n (page_url page) = None) ->
  exists st',
    scrape_all net max_pages st = (Ret tt, st')
    /\ asset_dict st' = asset_dict st
    /\ failed_urls st' = failed_urls st
    /\ requests st' = requests st ++ List.map page_url (range max_pages)
    /\ ((max_pages <= 0)%Z -> requests st' = requests st).
Proof.
  intros Hfail.
  destruct (pages_all_fail max_pages (range max_pages) st Hfail)
    as (st1 & Hrun & Hdict & Hfailed & Hrequests).
  eexists. unfold scrape_all, bind. rewrite Hrun. unfold summary.
  split; [reflexivity|]. cbn. split; [exact Hdict|]. split; [exact Hfailed|].
  split; [exact Hrequests|].
  intros Hneg. rewrite Hrequests. unfold range.
  replace (Z.to_nat max_pages) with 0 by lia. cbn. now rewrite app_nil_r.
Qed.





End CrawlOutcome.

Lemma scrape_all_pages_fail_witness :
  exists st',
    scrape_all Sample.offline 2 init = (Ret tt, st')
    /\ requests st' = [page_url 0; page_url 1].
Proof.
  destruct (scrape_all_pages_fail Sample.offline 2 init (fun _ _ => eq_refl))
    as (st' & Hrun & _ & _ & Hrequests & _).
  exists st'. split; [exact Hrun | exact Hrequests].
Defined.



(** ** More on the dedup rule *)

#[local] Set Warnings "-clear-no-such-hyp".

Lemma merge_all_cons (asset_info : AssetInfo) (records : list AssetInfo)
    (d : gmap string AssetInfo) :
  merge_all (asset_info :: records) d = merge_all records (merge asset_info d).
Proof. reflexivity. Qed.

Lemma merge_lookup_inv (asset_info r : AssetInfo) (d : gmap string AssetInfo)
    (k : string) :
  merge asset_info d !! k = Some r ->
  d !! k = Some r \/ (r = asset_info /\ asset_url asset_info = k).
Proof.
  unfold merge.
  destruct (d !! asset_url asset_info) as [previous_info|];
    [destruct (PyStr.gt _ _); [now left|]|];
    (rewrite lookup_insert; case_decide; [intros [= <-]; now right | now left]).
Qed.

Lemma merge_all_lookup_inv (records : list AssetInfo) (d : gmap string AssetInfo)
    (k : string) (r : AssetInfo) :
  merge_all records d !! k = Some r ->
  d !! k = Some r \/ (In r records /\ asset_url r = k).
Proof.
  revert d. induction records as [|asset_info records IH]; intros d.
  - now left.
  - rewrite merge_all_cons. intros H.
    destruct (IH _ H) as [Hd|[Hin Hk]].
    + destruct (merge_lookup_inv _ _ _ _ Hd) as [Hd'|[-> Hk]].
      * now left.
      * right. split; [now left | exact Hk].
    + right. split; [now right | exact Hk].
Qed.

Lemma merge_dom (asset_info : AssetInfo) (d : gmap string AssetInfo) :
  dom (merge asset_info d) = {[asset_url asset_info]} ∪ dom d.
Proof.
  unfold merge. destruct (d !! asset_url asset_info) as [previous_info|] eqn:Hprev.
  - assert (asset_url asset_info ∈ dom d) by (apply elem_of_dom; eauto).
    destruct (PyStr.gt _ _); [set_solver | rewrite dom_insert_L; set_solver].
  - now rewrite dom_insert_L.
Qed.

Lemma merge_all_dom (records : list AssetInfo) (d : gmap string AssetInfo) :
  dom (merge_all records d) = dom d ∪ list_to_set (List.map asset_url records).
Proof.
  revert d. induction records as [|asset_info records IH]; intros d.
  - cbn. set_solver.
  - rewrite merge_all_cons, IH, merge_dom. cbn. set_solver.
Qed.

Lemma merge_not_lower (asset_info p : AssetInfo) (d : gmap string AssetInfo)
    (k : string) :
  d !! k = Some p ->
  exists r, merge asset_info d !! k = Some r
            /\ PyStr.gt (godot_version p) (godot_version r) = false.
Proof.
  intros Hp. destruct (decide (asset_url asset_info = k)) as [Hk|Hk].
  - unfold merge. rewrite Hk, Hp.
    destruct (PyStr.gt (godot_version p) (godot_version asset_info)) eqn:Hgt.
    + exists p. split; [exact Hp | apply gt_irrefl].
    + exists asset_info. split; [apply lookup_insert_eq | exact Hgt].
  - exists p. rewrite merge_lookup_other by exact Hk.
    split; [exact Hp | apply gt_irrefl].
Qed.

Lemma merge_all_not_lower (records : list AssetInfo) (p : AssetInfo)
    (d : gmap string AssetInfo) (k : string) :
  d !! k = Some p ->
  exists r, merge_all records d !! k = Some r
            /\ PyStr.gt (godot_version p) (godot_version r) = false.
Proof.
  revert d p. induction records as [|asset_info records IH]; intros d p Hp.
  - exists p. split; [exact Hp | apply gt_irrefl].
  - rewrite merge_all_cons.
    destruct (merge_not_lower asset_info p d k Hp) as (q & Hq & Hpq).
    destruct (IH _ _ Hq) as (r & Hr & Hqr).
    exists r. split; [exact Hr|].
    (* string order: r is not below q, q not below p *)
    apply gt_false_le. transitivity (godot_version q); now apply gt_false_le.
Qed.

Section CrawlDict.

Variable net : nat -> string -> option Tag.

Lemma scrape_asset_record_url (item : Tag) (st st' : state) (asset_info : AssetInfo) :
  scrape_asset net item st = (Ret (Some asset_info), st') ->
  String.prefix BASE_URL (asset_url asset_info) = true.
Proof. intros Hrun. scrape_asset_paths; apply prefix_append. Qed.

Lemma item_extracted_in (item : Tag) (st : state) (asset_info : AssetInfo) :
  In asset_info (item_extracted net item st) ->
  exists st', scrape_asset net item st = (Ret (Some asset_info), st').
Proof.
  unfold item_extracted.
  destruct (scrape_asset net item st) as [[[r|]|e] st']; try (now intros []).
  intros [<-|[]]. now exists st'.
Qed.

(** Every record extracted in a crawl was returned by some call of
    [scrape_asset] on a listing entry. *)
Lemma extracted_in (max_pages : Z) (st : state) (asset_info : AssetInfo) :
  In asset_info (extracted net max_pages st) ->
  exists item st0 st1, scrape_asset net item st0 = (Ret (Some asset_info), st1).
Proof.
  unfold extracted. intros Hin.
  apply trace_each_in in Hin as (page & st0 & _ & Hin).
  unfold page_extracted in Hin.
  destruct (_make_request net (page_url page) _) as [[[soup|]|e] st1];
    try (now destruct Hin).
  apply trace_each_in in Hin as (item & st2 & _ & Hin).
  apply item_extracted_in in Hin as [st3 Hrun]. eauto.
Qed.

(** X18: a crawl keeps every record under its own URL: when each entry of
    [asset_dict] is stored under the [asset_url] of its record before the
    crawl, so it is at the end; and an entry of the end either was there
    before or is a record extracted in this crawl, whose URL starts with
    the catalogue's base URL (so it is not empty). *)
Theorem stored_under_own_url
    (max_pages : Z) (st st' : state) (outcome : res unit) :
  scrape_all net max_pages st = (outcome, st') ->
  (forall k r, asset_dict st !! k = Some r -> asset_url r = k) ->
  forall k r,
    asset_dict st' !! k = Some r ->
    asset_url r = k
    /\ (asset_dict st !! k = Some r
        \/ (In r (extracted net max_pages st)
            /\ String.prefix BASE_URL k = true /\ k <> "")).
Proof.
  intros Hrun Hkeys k r Hr.
  pose proof (scrape_all_dict net max_pages st) as Hdict.
  rewrite Hrun in Hdict. cbn [snd] in Hdict. rewrite Hdict in Hr.
  apply merge_all_lookup_inv in Hr as [Hold|[Hin Hk]].
  - split; [now apply Hkeys | now left].
  - split; [exact Hk|]. right. split; [exact Hin|].
    destruct (extracted_in _ _ _ Hin) as (item & st0 & st1 & Hscrape).
    apply scrape_asset_record_url in Hscrape. rewrite Hk in Hscrape.
    split; [exact Hscrape|]. intros ->. discriminate Hscrape.
Qed.

(** X19: the URLs stored at the end of a crawl are those stored before it
    together with the [asset_url] of every record extracted: each asset
    extracted has an entry, and no other entry appears. *)
Theorem stored_urls (max_pages : Z) (st st' : state) (outcome : res unit) :
  scrape_all net max_pages st = (outcome, st') ->
  dom (asset_dict st')
  = dom (asset_dict st) ∪ list_to_set (List.map asset_url (extracted net max_pages st)).
Proof.
  intros Hrun.
  pose proof (scrape_all_dict net max_pages st) as Hdict.
  rewrite Hrun in Hdict. cbn [snd] in Hdict. rewrite Hdict. apply merge_all_dom.
Qed.

(** X20: a crawl never deletes an entry and never lowers a stored tag: a
    URL stored before the crawl is stored at its end, with a
    [godot_version] that the earlier one is not greater than. *)
Theorem stored_tag_never_lower
    (max_pages : Z) (st st' : state) (outcome : res unit) (k : string) (p : AssetInfo) :
  scrape_all net max_pages st = (outcome, st') ->
  asset_dict st !! k = Some p ->
  exists r,
    asset_dict st' !! k = Some r
    /\ PyStr.gt (godot_version p) (godot_version r) = false.
Proof.
  intros Hrun Hp.
  pose proof (scrape_all_dict net max_pages st) as Hdict.
  rewrite Hrun in Hdict. cbn [snd] in Hdict. rewrite Hdict.
  now apply merge_all_not_lower.
Qed.

End CrawlDict.

Lemma stored_under_own_url_witness :
  asset_url Sample.record_first = "https://godotengine.org/asset-library/asset/7".
Proof.
  refine (proj1 (stored_under_own_url (Sample.serve Sample.page0) 2 init
                   (snd (scrape_all (Sample.serve Sample.page0) 2 init))
                   (fst (scrape_all (Sample.serve Sample.page0) 2 init))
                   _ _ "https://godotengine.org/asset-library/asset/7"
                   Sample.record_first _)).
  - vm_compute. reflexivity.
  - intros k r Hr. unfold init in Hr. cbn [asset_dict] in Hr.
    rewrite lookup_empty in Hr. discriminate Hr.
  - vm_compute. reflexivity.
Defined.

Lemma stored_urls_witness :
  dom (asset_dict (snd (scrape_all (Sample.serve Sample.page0) 2 init)))
  = dom (asset_dict init)
    ∪ list_to_set (List.map asset_url (extracted (Sample.serve Sample.page0) 2 init)).
Proof.
  refine (stored_urls (Sample.serve Sample.page0) 2 init
            (snd (scrape_all (Sample.serve Sample.page0) 2 init))
            (fst (scrape_all (Sample.serve Sample.page0) 2 init)) _).
  vm_compute. reflexivity.
Defined.

Lemma stored_tag_never_lower_witness :
  exists r,
    asset_dict
      (snd (scrape_all (Sample.serve Sample.page0) 2
              (set_asset_dict
                 {[ "https://godotengine.org/asset-library/asset/7" := Sample.record_again ]}
                 init)))
      !! "https://godotengine.org/asset-library/asset/7" = Some r
    /\ PyStr.gt (godot_version Sample.record_again) (godot_version r) = false.
Proof.
  refine (stored_tag_never_lower (Sample.serve Sample.page0) 2
            (set_asset_dict
               {[ "https://godotengine.org/asset-library/asset/7" := Sample.record_again ]}
               init)
            _ (fst (scrape_all (Sample.serve Sample.page0) 2
                      (set_asset_dict
                         {[ "https://godotengine.org/asset-library/asset/7"
                            := Sample.record_again ]}
                         init)))
            _ Sample.record_again _ _).
  - vm_compute. reflexivity.
  - reflexivity.
Defined.

(** ** Merging the same records again *)

Lemma ge_antisym (a b : string) :
  PyStr.gt a b = false -> PyStr.gt b a = false -> a = b.
Proof.
  rewrite !gt_false_le. intros Hab Hba. now apply (anti_symm String.le).
Qed.

Lemma merge_lookup (asset_info : AssetInfo) (d : gmap string AssetInfo) (k : string) :
  merge asset_info d !! k
  = if String.eqb (asset_url asset_info) k then merge_entry (d !! k) asset_info
    else d !! k.
Proof.
  destruct (String.eqb_spec (asset_url asset_info) k) as [<-|Hne].
  - unfold merge, merge_entry.
    destruct (d !! asset_url asset_info) as [previous_info|] eqn:Hprev.
    + destruct (PyStr.gt _ _); [exact Hprev | apply lookup_insert_eq].
    + apply lookup_insert_eq.
  - now apply merge_lookup_other.
Qed.

(** The entry of a URL after a merge is the rule folded over the records
    for that URL. *)
Lemma merge_all_lookup (records : list AssetInfo) (d : gmap string AssetInfo)
    (k : string) :
  merge_all records d !! k
  = fold_left merge_entry
      (List.filter (fun asset_info => String.eqb (asset_url asset_info) k) records)
      (d !! k).
Proof.
  revert d. induction records as [|asset_info records IH]; intros d; [reflexivity|].
  rewrite merge_all_cons, IH, merge_lookup. cbn [List.filter].
  now destruct (String.eqb (asset_url asset_info) k).
Qed.

Lemma fold_entry_snoc (l : list AssetInfo) (r : AssetInfo) (o : option AssetInfo) :
  fold_left merge_entry (l ++ [r]) o = merge_entry (fold_left merge_entry l o) r.
Proof. now rewrite fold_left_app. Qed.

Lemma merge_entry_some (o : option AssetInfo) (r : AssetInfo) :
  exists x, merge_entry o r = Some x.
Proof. unfold merge_entry. destruct o; [destruct (PyStr.gt _ _)|]; eauto. Qed.

Lemma fold_entry_none (l : list AssetInfo) (o : option AssetInfo) :
  fold_left merge_entry l o = None -> l = [] /\ o = None.
Proof.
  destruct l as [|r l] using rev_ind; [now split|].
  rewrite fold_entry_snoc. destruct (merge_entry_some (fold_left merge_entry l o) r)
    as [x ->]. discriminate.
Qed.

(** No record folded in has a greater tag than the entry that results. *)
Lemma fold_entry_max (l : list AssetInfo) (o : option AssetInfo) (x : AssetInfo) :
  fold_left merge_entry l o = Some x ->
  forall r, In r l -> PyStr.gt (godot_version r) (godot_version x) = false.
Proof.
  revert x. induction l as [|r l IH] using rev_ind; intros x Hx r' Hin.
  - destruct Hin.
  - rewrite fold_entry_snoc in Hx. apply in_app_or in Hin.
    destruct (fold_left merge_entry l o) as [m|] eqn:Hm; cbn [merge_entry] in Hx.
    + destruct (PyStr.gt (godot_version m) (godot_version r)) eqn:Hgt;
        injection Hx as <-.
      * destruct Hin as [Hin|[<-|[]]]; [now apply IH | now apply gt_asym].
      * destruct Hin as [Hin|[<-|[]]]; [|apply gt_irrefl].
        apply ge_trans with (godot_version m); [now apply IH | exact Hgt].
    + injection Hx as <-. apply fold_entry_none in Hm as [-> _].
      destruct Hin as [[]|[<-|[]]]. apply gt_irrefl.
Qed.

(** Folding in records whose tags are not greater than the stored one
    keeps the stored tag. *)
Lemma fold_entry_dominated (l : list AssetInfo) (c : AssetInfo) :
  (forall r, In r l -> PyStr.gt (godot_version r) (godot_version c) = false) ->
  exists c', fold_left merge_entry l (Some c) = Some c'
             /\ godot_version c' = godot_version c.
Proof.
  revert c. induction l as [|r l IH]; intros c Hdom.
  - now exists c.
  - cbn [fold_left merge_entry].
    destruct (PyStr.gt (godot_version c) (godot_version r)) eqn:Hgt.
    + apply IH. intros r' Hin. apply Hdom. now right.
    + assert (Heq : godot_version r = godot_version c).
      { apply ge_antisym; [apply Hdom; now left | exact Hgt]. }
      destruct (IH r) as (c' & Hc' & Htag).
      * intros r' Hin. rewrite Heq. apply Hdom. now right.
      * exists c'. split; [exact Hc' | congruence].
Qed.

Lemma fold_entry_twice (l : list AssetInfo) (o : option AssetInfo) :
  fold_left merge_entry l (fold_left merge_entry l o) = fold_left merge_entry l o.
Proof.
  induction l as [|r l IH] using rev_ind; [reflexivity|].
  rewrite !fold_entry_snoc.
  destruct (fold_left merge_entry l o) as [m|] eqn:Hm.
  - cbn [merge_entry].
    destruct (PyStr.gt (godot_version m) (godot_version r)) eqn:Hgt.
    + rewrite IH. cbn [merge_entry]. now rewrite Hgt.
    + destruct (fold_entry_dominated l r) as (c' & -> & Htag).
      * intros r' Hin. apply ge_trans with (godot_version m); [|exact Hgt].
        now apply (fold_entry_max l o).
      * cbn [merge_entry]. now rewrite Htag, gt_irrefl.
  - apply fold_entry_none in Hm as [-> ->]. cbn. now rewrite gt_irrefl.
Qed.

Lemma merge_all_twice (records : list AssetInfo) (d : gmap string AssetInfo) :
  merge_all records (merge_all records d) = merge_all records d.
Proof.
  apply map_eq. intros k. rewrite !merge_all_lookup. apply fold_entry_twice.
Qed.

(** ** Crawling an unchanged catalogue again *)

(** Two loops whose iterations have the same outcome and see the same
    records, whatever the state, have the same outcome and see the same
    records. *)
Lemma trace_each_static {A} (body : A -> M unit) (seen : A -> state -> list AssetInfo) :
  (forall x st1 st2, fst (body x st1) = fst (body x st2)) ->
  (forall x st1 st2, seen x st1 = seen x st2) ->
  forall xs st1 st2,
    trace_each body seen xs st1 = trace_each body seen xs st2
    /\ fst (for_each body xs st1) = fst (for_each body xs st2).
Proof.
  intros Hbody Hseen xs. induction xs as [|x xs IH]; intros st1 st2.
  - now split.
  - cbn [trace_each for_each]. unfold bind.
    rewrite (Hseen x st1 st2). specialize (Hbody x st1 st2).
    destruct (body x st1) as [[[]|e1] s1], (body x st2) as [[[]|e2] s2];
      cbn [fst] in Hbody; try discriminate.
    + destruct (IH s1 s2) as [-> ->]. now split.
    + now split.
Qed.

Section Unchanged.

(** A network that answers a URL the same way at every time. *)
Variable web : string -> option Tag.

Lemma scrape_asset_static (item : Tag) (st1 st2 : state) :
  fst (scrape_asset (fun _ => web) item st1)
  = fst (scrape_asset (fun _ => web) item st2).
Proof.
  unfold scrape_asset, scrape_fields, except_handler, resolve_asset_url,
    bind, lift, logging, ret, _make_request, get_attr, get_text.
  repeat match goal with
         | |- context [match ?x with _ => _ end] =>
             lazymatch x with
             | context [match _ with _ => _ end] => fail
             | (_, _) => fail
             | _ => destruct x eqn:?
             end
         end; reflexivity.
Qed.

Lemma item_static (item : Tag) (st1 st2 : state) :
  fst (item_step (fun _ => web) item st1) = fst (item_step (fun _ => web) item st2)
  /\ item_extracted (fun _ => web) item st1 = item_extracted (fun _ => web) item st2.
Proof.
  pose proof (scrape_asset_static item st1 st2) as Hsame.
  unfold item_step, item_extracted, bind.
  destruct (scrape_asset (fun _ => web) item st1) as [[[r1|]|e1] s1],
           (scrape_asset (fun _ => web) item st2) as [[[r2|]|e2] s2];
    cbn [fst] in Hsame; try discriminate; try (now split).
  all: injection Hsame as ->; now split.
Qed.

Lemma page_static (max_pages : Z) (page : nat) (st1 st2 : state) :
  fst (page_step (fun _ => web) max_pages page st1)
  = fst (page_step (fun _ => web) max_pages page st2)
  /\ page_extracted (fun _ => web) max_pages page st1
     = page_extracted (fun _ => web) max_pages page st2.
Proof.
  unfold page_step, page_extracted, bind, logging, _make_request.
  destruct (web (page_url page)) as [soup|]; [|now split].
  match goal with
  | |- fst (for_each _ _ ?s1) = fst (for_each _ _ ?s2) /\ _ =>
      destruct (trace_each_static (item_step (fun _ => web))
                  (item_extracted (fun _ => web))
                  (fun x a b => proj1 (item_static x a b))
                  (fun x a b => proj2 (item_static x a b))
                  (tag_select soup ".asset-item") s1 s2) as [Htrace Hout]
  end.
  split; [exact Hout | exact Htrace].
Qed.

Lemma extracted_static (max_pages : Z) (st1 st2 : state) :
  extracted (fun _ => web) max_pages st1 = extracted (fun _ => web) max_pages st2
  /\ fst (scrape_all (fun _ => web) max_pages st1)
     = fst (scrape_all (fun _ => web) max_pages st2).
Proof.
  destruct (trace_each_static (page_step (fun _ => web) max_pages)
              (page_extracted (fun _ => web) max_pages)
              (fun x a b => proj1 (page_static max_pages x a b))
              (fun x a b => proj2 (page_static max_pages x a b))
              (range max_pages) st1 st2) as [Htrace Hout].
  split; [exact Htrace|].
  unfold scrape_all, bind.
  destruct (for_each _ (range max_pages) st1) as [[[]|e1] s1],
           (for_each _ (range max_pages) st2) as [[[]|e2] s2];
    cbn [fst] in Hout; try discriminate; [reflexivity | exact Hout].
Qed.

(** X21: on a network that answers every URL the same way at every time,
    a second crawl right after a first one ends the same way, extracts the
    same records and leaves [asset_dict] exactly as the first crawl left
    it. *)
Theorem second_crawl_changes_nothing
    (max_pages : Z) (st st' st'' : state) (outcome outcome' : res unit) :
  scrape_all (fun _ => web) max_pages st = (outcome, st') ->
  scrape_all (fun _ => web) max_pages st' = (outcome', st'') ->
  outcome' = outcome
  /\ extracted (fun _ => web) max_pages st' = extracted (fun _ => web) max_pages st
  /\ asset_dict st'' = asset_dict st'.
Proof.
  intros Hfirst Hsecond.
  destruct (extracted_static max_pages st' st) as [Hsame Hout].
  rewrite Hfirst, Hsecond in Hout. cbn [fst] in Hout.
  split; [exact Hout|]. split; [exact Hsame|].
  pose proof (scrape_all_dict (fun _ => web) max_pages st) as Hd1.
  pose proof (scrape_all_dict (fun _ => web) max_pages st') as Hd2.
  rewrite Hfirst in Hd1. rewrite Hsecond in Hd2. cbn [snd] in Hd1, Hd2.
  rewrite Hd2, Hsame, Hd1. apply merge_all_twice.
Qed.

End Unchanged.

Lemma second_crawl_changes_nothing_witness :
  asset_dict (snd (scrape_all (fun _ => Sample.web0) 2 Sample.after_crawl))
  = asset_dict Sample.after_crawl.
Proof.
  refine (proj2 (proj2 (second_crawl_changes_nothing Sample.web0 2 init
                          Sample.after_crawl
                          (snd (scrape_all (fun _ => Sample.web0) 2 Sample.after_crawl))
                          (Ret tt) (Ret tt) _ _))).
  - vm_compute. reflexivity.
  - vm_compute. reflexivity.
Defined.

(** ** The [last_updated] field *)

Lemma whole_piece_no_sep (sep : ascii) (p : string) :
  PyStr.split sep p = [p] -> PyStr.contains (String sep "") p = false.
Proof.
  induction p as [|c p IH]; [reflexivity|].
  cbn [PyStr.split]. rewrite contains_char_cons, (Ascii.eqb_sym sep c).
  destruct (Ascii.eqb c sep); [discriminate|].
  destruct (PyStr.split sep p) as [|h t] eqn:Hs; [now destruct (split_nonempty sep p)|].
  intros [= -> ->]. now apply IH.
Qed.

Lemma last_piece_no_sep (sep : ascii) (s : string) :
  PyStr.contains (String sep "") (List.last (PyStr.rsplit sep s) "") = false.
Proof.
  unfold PyStr.rsplit. pose proof (split_pieces_whole sep s) as Hall.
  induction (PyStr.split sep s) as [|p pieces IH]; [reflexivity|].
  inversion Hall as [|? ? Hp Hrest]; subst.
  destruct pieces as [|q pieces]; [now apply whole_piece_no_sep | now apply IH].
Qed.

Section StripKeeps.

Variable c : ascii.

Lemma drop_no_char (n : nat) (s : string) :
  PyStr.contains (String c "") s = false ->
  PyStr.contains (String c "") (PyStr.drop n s) = false.
Proof.
  revert s. induction n as [|n IH]; intros s Hs; [now destruct s|].
  destruct s as [|d s]; [exact Hs|]. cbn [PyStr.drop].
  rewrite contains_char_cons in Hs. apply orb_false_elim in Hs as [_ Hs].
  now apply IH.
Qed.

Lemma lstrip_no_char (s : string) :
  PyStr.contains (String c "") s = false ->
  PyStr.contains (String c "") (PyStr.lstrip s) = false.
Proof.
  unfold PyStr.lstrip. generalize (String.length s) as fuel. intros fuel.
  revert s. induction fuel as [|fuel IH]; intros s Hs; [exact Hs|].
  cbn [PyStr.lstrip_fuel]. destruct (PyStr.space_prefix s); [|exact Hs].
  now apply IH, drop_no_char.
Qed.

Lemma rstrip_no_char (s : string) :
  PyStr.contains (String c "") s = false ->
  PyStr.contains (String c "") (PyStr.rstrip s) = false.
Proof.
  induction s as [|d s IH]; intros Hs; [reflexivity|].
  cbn [PyStr.rstrip]. destruct (PyStr.blank (String d s)); [reflexivity|].
  rewrite contains_char_cons in *. apply orb_false_elim in Hs as [-> Hs].
  now apply IH.
Qed.

(** [strip] brings in no character that was not there. *)
Lemma strip_no_char (s : string) :
  PyStr.contains (String c "") s = false ->
  PyStr.contains (String c "") (PyStr.strip s) = false.
Proof. intros Hs. unfold PyStr.strip. now apply rstrip_no_char, lstrip_no_char. Qed.

End StripKeeps.

Section LastUpdated.

Variable net : nat -> string -> option Tag.

(** X22: the [last_updated] of a record returned by [scrape_asset] holds
    no ['|']: it is cut out of the footer text after its last ['|']. *)
Theorem last_updated_no_pipe (item : Tag) (st st' : state) (asset_info : AssetInfo) :
  scrape_asset net item st = (Ret (Some asset_info), st') ->
  PyStr.contains "|" (last_updated asset_info) = false
  /\ exists footer,
       select_one item ".asset-footer span" = Some footer
       /\ last_updated asset_info
          = PyStr.strip (List.last (PyStr.split "|" (tag_text footer)) "").
Proof.
  intros Hrun. scrape_asset_paths; cbn [last_updated];
    (split; [apply strip_no_char, last_piece_no_sep | eauto]).
Qed.

End LastUpdated.

Lemma last_updated_no_pipe_witness :
  PyStr.contains "|" (last_updated Sample.record_first) = false.
Proof.
  refine (proj1 (last_updated_no_pipe (Sample.serve Sample.page0) Sample.item_old init
                   (snd (scrape_asset (Sample.serve Sample.page0) Sample.item_old init))
                   Sample.record_first _)).
  vm_compute. reflexivity.
Defined.
